(** * Folder signing script of Uranium ([scripts/signfolder.py])

    A shallow embedding of [signFolder] and of the command-line entry point
    [mainfunc], together with the parts of the interpreter and of the
    operating system they touch:

    - POSIX path strings ([os.path.join], [os.path.basename]);
    - the directory tree that [os.walk(path, followlinks = True)] sees;
    - Python dictionaries, kept as insertion-ordered association lists;
    - statements that fall through, [return] or raise;
    - the files written and the messages handed to the [Logger].

    The module [UM.Trust] ([TrustBasics]) is not among the sources.  Its
    cryptographic primitives and the manifest's file name are the fields of
    the class [TrustBasics]; its helpers that the specification pins down are
    definitions marked "Modelled from the spec". *)

From Stdlib Require Import Ascii.
From stdpp Require Import base gmap strings list sorting.

(** ** POSIX paths *)

Module posixpath.

Definition sep : ascii := "/"%char.

Definition starts_with_sep (s : string) : bool :=
  match s with
  | String c _ => bool_decide (c = sep)
  | EmptyString => false
  end.

Fixpoint ends_with_sep (s : string) : bool :=
  match s with
  | EmptyString => false
  | String c EmptyString => bool_decide (c = sep)
  | String _ r => ends_with_sep r
  end.

(** [os.path.join(a, b)]: an absolute [b] replaces [a]; a separator is
    put in between unless [a] is empty or already ends with one. *)
Definition join (a b : string) : string :=
  if starts_with_sep b then b
  else if bool_decide (a = "") || ends_with_sep a then a +:+ b
  else a +:+ "/" +:+ b.

(** [os.path.basename(p)]: what follows the last separator.  [cur] is the
    component read since the last separator. *)
Fixpoint basename_from (cur p : string) : string :=
  match p with
  | EmptyString => cur
  | String c r =>
      if bool_decide (c = sep) then basename_from "" r
      else basename_from (cur +:+ String c "") r
  end.

Definition basename (p : string) : string := basename_from "" p.

(** [strip_prefix pre s] is [Some r] when [s = pre + r]. *)
Fixpoint strip_prefix (pre s : string) : option string :=
  match pre, s with
  | EmptyString, _ => Some s
  | String a pre', String b s' =>
      if bool_decide (a = b) then strip_prefix pre' s' else None
  | String _ _, EmptyString => None
  end.

(** Drop the leading separators. *)
Fixpoint lstrip_sep (s : string) : string :=
  match s with
  | String c r => if bool_decide (c = sep) then lstrip_sep r else s
  | EmptyString => s
  end.

(** [p] lies strictly below the directory [root]. *)
Definition is_descendant (root p : string) : bool :=
  match strip_prefix root p with
  | Some rest =>
      negb (bool_decide (lstrip_sep rest = ""))
      && (starts_with_sep rest || ends_with_sep root)
  | None => false
  end.

End posixpath.

(** ** The directory tree and [os.walk] *)

#[local] Set Warnings "-register-all".

(** What [os.walk] with [followlinks = True] sees: a symbolic link to a
    directory is a directory, a symbolic link to a file is a file.  Where a
    link leads is the business of [realpath] below. *)
Inductive node : Type :=
| File
| Dir (entries : list (string * node)).

Definition is_dir (n : node) : bool :=
  match n with Dir _ => true | File => false end.

(** One item of the walk: [(root, dirnames, filenames)]. *)
Definition walk_item : Type := string * list string * list string.

Definition dirnames (entries : list (string * node)) : list string :=
  (filter (λ e, is_dir e.2) entries).*1.

Definition filenames (entries : list (string * node)) : list string :=
  (filter (λ e, ¬ is_dir e.2) entries).*1.

(** [os.walk(top, followlinks = True)], top-down: the directory itself
    first, then each sub-directory in the order of [dirnames].  A [top] that
    is not a directory yields nothing (the error of [scandir] is dropped). *)
Fixpoint walk (top : string) (n : node) : list walk_item :=
  match n with
  | File => []
  | Dir entries =>
      (top, dirnames entries, filenames entries) ::
      (fix below (es : list (string * node)) : list walk_item :=
         match es with
         | [] => []
         | (name, child) :: es' => walk (posixpath.join top name) child ++ below es'
         end) entries
  end.

(** A directory entry's name is not empty and holds no separator. *)
Fixpoint has_sep (s : string) : bool :=
  match s with
  | EmptyString => false
  | String c r => bool_decide (c = posixpath.sep) || has_sep r
  end.

Definition valid_name (name : string) : bool :=
  negb (bool_decide (name = "")) && negb (has_sep name).

Fixpoint valid_tree (n : node) : bool :=
  match n with
  | File => true
  | Dir entries =>
      (fix all (es : list (string * node)) : bool :=
         match es with
         | [] => true
         | (name, child) :: es' => valid_name name && valid_tree child && all es'
         end) entries
  end.

(** ** Python dictionaries and JSON documents *)

(** A [dict] keeps its keys in insertion order; assigning to a key that is
    present replaces the value where it stands. *)
Definition dict (V : Type) : Type := list (string * V).

Fixpoint dict_set {V : Type} (d : dict V) (k : string) (v : V) : dict V :=
  match d with
  | [] => [(k, v)]
  | (k', v') :: d' =>
      if bool_decide (k' = k) then (k, v) :: d' else (k', v') :: dict_set d' k v
  end.

Fixpoint dict_get {V : Type} (d : dict V) (k : string) : option V :=
  match d with
  | [] => None
  | (k', v') :: d' => if bool_decide (k' = k) then Some v' else dict_get d' k
  end.

Definition keys {V : Type} (d : dict V) : list string := d.*1.

(** The values [json.dump] is given here: strings and objects. *)
Inductive json : Type :=
| JStr (s : string)
| JObj (fields : list (string * json)).

(** ** Files, log and control flow *)

Inductive file_content : Type :=
| Complete (doc : json)   (* [json.dump] of [doc] ran to its end *)
| Incomplete.             (* opened with mode "w", the dump did not finish *)

Inductive log_entry : Type :=
| Log (level message : string)
| LogException (level message : string).

Record world : Type := World {
  files : gmap string file_content;
  logged : list log_entry;
}.

Inductive exn : Type :=
| PathOutsideRootError
| OSError.

(** How a block of statements ends: it falls through with a value, it
    executes [return b], or it raises. *)
Inductive completion (A : Type) : Type :=
| Next (a : A)
| Return (b : bool)
| Raise (e : exn).
Arguments Next {A} a.
Arguments Return {A} b.
Arguments Raise {A} e.

Definition stmt (A : Type) : Type := world → completion A * world.

#[global] Instance stmt_ret : MRet stmt := λ A a w, (Next a, w).
#[global] Instance stmt_bind : MBind stmt := λ A B f c w,
  match c w with
  | (Next a, w') => f a w'
  | (Return b, w') => (Return b, w')
  | (Raise e, w') => (Raise e, w')
  end.

Definition return_ {A : Type} (b : bool) : stmt A := λ w, (Return b, w).
Definition raise {A : Type} (e : exn) : stmt A := λ w, (Raise e, w).

(** [try: body except: handler], the handler catching every exception. *)
Definition try_except {A : Type} (body handler : stmt A) : stmt A := λ w,
  match body w with
  | (Raise _, w') => handler w'
  | r => r
  end.

(** The value a function body hands to its caller.  The bodies below end
    in a [return] on every path. *)
Definition returned (body : stmt ()) (w : world) : bool * world :=
  match body w with
  | (Return b, w') => (b, w')
  | (_, w') => (false, w')
  end.

Module Logger.
Definition log (level message : string) : stmt () := λ w,
  (Next (), World (files w) (logged w ++ [Log level message])).
Definition logException (level message : string) : stmt () := λ w,
  (Next (), World (files w) (logged w ++ [LogException level message])).
End Logger.

(** ** Collaborators *)

(** The primitives of [UM.Trust.TrustBasics] that the specification leaves
    to the cryptography collaborator, and the manifest's file name, whose
    value the specification does not give. *)
Class TrustBasics : Type := {
  PrivateKey : Type;
  (** Load a private key from a path, with an optional password. *)
  loadPrivateKey : string → option string → option PrivateKey;
  (** Sign the file at a path; [None] when it cannot be read. *)
  getFileSignature : string → PrivateKey → option string;
  (** Sign a digest. *)
  getHashSignature : string → PrivateKey → string;
  (** The digest of a byte sequence. *)
  hash_digest : string → string;
  getSignaturesLocalFilename : string;
}.

Inductive write_result : Type :=
| OpenFails    (* [open(name, "w")] raises, nothing is touched *)
| DumpFails    (* the file is opened (and emptied), [json.dump] raises *)
| WriteOk.

(** What the operating system answers during one run. *)
Class OS : Type := {
  getcwd : string;
  realpath : string → string;
  (** the directory tree found at a path ([File] when there is none) *)
  listing : string → node;
  write_outcome : string → write_result;
}.

Definition os_walk `{OS} (top : string) : list walk_item := walk top (listing top).

(** [with open(name, "w") as f: json.dump(doc, f, indent = 2)] *)
Definition dump_json `{OS} (name : string) (doc : json) : stmt () := λ w,
  match write_outcome name with
  | OpenFails => (Raise OSError, w)
  | DumpFails => (Raise OSError, World (<[name := Incomplete]> (files w)) (logged w))
  | WriteOk => (Next (), World (<[name := Complete doc]> (files w)) (logged w))
  end.

(** ** Helpers of [TrustBasics] that the specification describes *)

(** Modelled from the spec: [TrustBasics.getRootSignatureCategory], of
    [UM/Trust.py], which is not among the sources.  Section 6 and the
    docstring of [signFolder] fix the field name of the per-file mapping. *)
Definition getRootSignatureCategory : string := "root_signatures".

(** Modelled from the spec: [TrustBasics.getRootSignedManifestKey], of
    [UM/Trust.py], which is not among the sources.  Section 6 and the
    docstring of [signFolder] fix the field name of the self-signature. *)
Definition getRootSignedManifestKey : string := "root_manifest_signature".

(** Pairs compared by their keys, strings compared byte by byte. *)
Definition key_le (p q : string * string) : Prop := (p.1 ≤ q.1)%string.

#[global] Instance key_le_dec : RelDecision key_le.
Proof. intros p q. unfold key_le. apply _. Defined.

(** [key0 signature0 key1 signature1 ...], nothing in between. *)
Definition concat_pairs (l : list (string * string)) : string :=
  foldr (λ p acc, p.1 +:+ p.2 +:+ acc) "" l.

(** Modelled from the spec: [TrustBasics.getSelfSignHash], of [UM/Trust.py],
    which is not among the sources.  Section 4.3 step 4: sort the pairs by
    key, concatenate key and signature of each pair in that order, digest
    the concatenation. *)
Definition getSelfSignHash `{TrustBasics} (signatures : dict string) : string :=
  hash_digest (concat_pairs (merge_sort key_le signatures)).

(** Modelled from the spec: [TrustBasics.getFilePathInfo], of [UM/Trust.py],
    which is not among the sources.  Section 4.1: the path of the file must
    lie below the root after symbolic links are resolved, else the call
    fails with [PathOutsideRootError]; the key is the path relative to the
    root, without a leading separator (a name that does not start with the
    root has no such key and fails alike).  The result is the pair that
    [signFolder] unpacks: the name on disk and the key. *)
Definition getFilePathInfo `{OS} (base_folder current_folder filename : string)
    : exn + string * string :=
  let name_on_disk := posixpath.join current_folder filename in
  if posixpath.is_descendant (realpath base_folder) (realpath name_on_disk) then
    match posixpath.strip_prefix base_folder name_on_disk with
    | Some relative => inr (name_on_disk, posixpath.lstrip_sep relative)
    | None => inl PathOutsideRootError
    end
  else inl PathOutsideRootError.

(** ** [signfolder.py] *)

Definition DEFAULT_PRIVATE_KEY_PATH : string := "../private_key.pem".
Definition DEFAULT_TO_SIGN_FOLDER : string := ".".
Definition DEFAULT_IGNORE_SUBFOLDERS : list string := ["__pycache__"].
Definition DEFAULT_PASSWORD : string := "".

Section signfolder.
Context `{TB : TrustBasics} `{os : OS}.

(** The body of [for filename in filenames], from the file [filenames]
    starts with; [signatures] is the dictionary built so far. *)
Fixpoint sign_files (path root : string) (private_key : PrivateKey)
    (filenames : list string) (signatures : dict string) : stmt (dict string) :=
  match filenames with
  | [] => mret signatures
  | filename :: rest =>
      if bool_decide (filename = getSignaturesLocalFilename ∧ root = path) then
        sign_files path root private_key rest signatures
      else
        match getFilePathInfo path root filename with
        | inl e => raise e
        | inr (name_on_disk, name_in_data) =>
            match getFileSignature name_on_disk private_key with
            | None =>
                Logger.logException "e" ("Couldn't sign file '" +:+ name_on_disk +:+ "'.");;
                return_ false
            | Some signature =>
                sign_files path root private_key rest
                  (dict_set signatures name_in_data signature)
            end
        end
  end.

(** [for root, dirnames, filenames in os.walk(path, followlinks = True)] *)
Fixpoint sign_walk (path : string) (ignore_folders : list string)
    (private_key : PrivateKey) (items : list walk_item)
    (signatures : dict string) : stmt (dict string) :=
  match items with
  | [] => mret signatures
  | (root, _, filenames) :: rest =>
      if bool_decide (posixpath.basename root ∈ ignore_folders) then
        sign_walk path ignore_folders private_key rest signatures
      else
        signatures' ← sign_files path root private_key filenames signatures;
        sign_walk path ignore_folders private_key rest signatures'
  end.

(** The dictionary handed to [json.dump]. *)
Definition wrapped_signatures (signatures : dict string) (self_signature : string)
    : dict json :=
  dict_set
    (dict_set [] getRootSignatureCategory (JObj (prod_map id JStr <$> signatures)))
    getRootSignedManifestKey (JStr self_signature).

(** The block under [try:]. *)
Definition signFolder_try (path : string) (ignore_folders : list string)
    (private_key : PrivateKey) : stmt () :=
  signatures ← sign_walk path ignore_folders private_key (os_walk path) [];
  let self_signature := getHashSignature (getSelfSignHash signatures) private_key in
  let json_filename := posixpath.join path getSignaturesLocalFilename in
  dump_json json_filename (JObj (wrapped_signatures signatures self_signature));;
  Logger.log "i" ("Signed folder '" +:+ path +:+ "'.");;
  return_ true.

(** What follows the loading of the key. *)
Definition signFolder_with_key (path : string) (ignore_folders : list string)
    (private_key : option PrivateKey) (w : world) : bool * world :=
  match private_key with
  | None => (false, w)
  | Some private_key =>
      returned
        (try_except (signFolder_try path ignore_folders private_key)
           (Logger.logException "e" ("Couldn't sign folder '" +:+ path +:+ "'."));;
         return_ false) w
  end.

Definition signFolder (private_key_path path : string) (ignore_folders : list string)
    (optional_password : option string) (w : world) : bool * world :=
  let path := if bool_decide (path ∈ [""; "."]) then getcwd else path in
  let password :=
    if bool_decide (optional_password = Some "") then None else optional_password in
  let private_key := loadPrivateKey private_key_path password in
  signFolder_with_key path ignore_folders private_key w.

(** *** The command line *)

(** The options found on the command line; [None] for one left out. *)
Record command_line : Type := {
  opt_private : option string;
  opt_folder : option string;
  opt_ignore : option (list string);
  opt_password : option string;
}.

Record Namespace : Type := {
  private : string;
  folder : string;
  ignore : list string;
  password : string;
}.

Definition parse_args (argv : command_line) : Namespace := {|
  private := default DEFAULT_PRIVATE_KEY_PATH (opt_private argv);
  folder := default DEFAULT_TO_SIGN_FOLDER (opt_folder argv);
  ignore := default DEFAULT_IGNORE_SUBFOLDERS (opt_ignore argv);
  password := default DEFAULT_PASSWORD (opt_password argv);
|}.

(** [mainfunc] calls [signFolder] as a statement and ends without a
    [return]: its value is [None]. *)
Definition mainfunc (argv : command_line) (w : world) : option Z * world :=
  let args := parse_args argv in
  let '(_, w') :=
    signFolder (private args) (folder args) (ignore args) (Some (password args)) w in
  (None, w').

(** [sys.exit(arg)]: [None] is status 0, an integer is the status. *)
Definition sys_exit (arg : option Z) : Z :=
  match arg with
  | None => 0
  | Some n => n `mod` 256
  end%Z.

(** [sys.exit(mainfunc())] *)
Definition script (argv : command_line) (w : world) : Z * world :=
  let '(value, w') := mainfunc argv w in (sys_exit value, w').

End signfolder.

(** ** The files the walk works on, and how a run can end *)

Section outcomes.
Context `{TB : TrustBasics} `{os : OS}.


(** The files of one directory that reach the signing step, each with
    the directory it was found in. *)
Definition eligible_in (path root : string) (filenames : list string)
    : list (string * string) :=
  (root,.) <$> filter (λ f, ¬ (f = getSignaturesLocalFilename ∧ root = path)) filenames.

(** The same over a whole walk: directories whose basename is ignored
    hand over nothing. *)
Definition eligible_files (path : string) (ignore_folders : list string)
    (items : list walk_item) : list (string * string) :=
  item ← items;
  if bool_decide (posixpath.basename item.1.1 ∈ ignore_folders) then []
  else eligible_in path item.1.1 item.2.

(** The entry a file adds to the dictionary, if it can be signed. *)
Definition sign_entry (path : string) (private_key : PrivateKey)
    (rf : string * string) : option (string * string) :=
  match getFilePathInfo path rf.1 rf.2 with
  | inr (name_on_disk, name_in_data) =>
      (name_in_data,.) <$> getFileSignature name_on_disk private_key
  | inl _ => None
  end.

Definition set_entries (signatures : dict string) (entries : list (string * string))
    : dict string :=
  foldl (λ d e, dict_set d e.1 e.2) signatures entries.

(** A block did not fall through, and did not return [True] either. *)
Definition abnormal {A : Type} (c : completion A) : Prop :=
  match c with
  | Next _ => False
  | Return b => b = false
  | Raise _ => True
  end.


(** The folder that is signed: the working directory stands in for an
    empty path and for ".". *)
Definition folder_of (path : string) : string :=
  if bool_decide (path ∈ [""; "."]) then getcwd else path.

Definition manifest_path (path : string) : string :=
  posixpath.join (folder_of path) getSignaturesLocalFilename.

(** The password the key is loaded with. *)
Definition password_of (optional_password : option string) : option string :=
  if bool_decide (optional_password = Some "") then None else optional_password.

(** The document written for a per-file mapping. *)
Definition manifest_doc (signatures : dict string) (private_key : PrivateKey) : json :=
  JObj (wrapped_signatures signatures
          (getHashSignature (getSelfSignHash signatures) private_key)).

Definition cannot_sign (path : string) (private_key : PrivateKey)
    (rf : string * string) : Prop :=
  sign_entry path private_key rf = None.

Definition signs_as (path : string) (private_key : PrivateKey)
    (rf entry : string * string) : Prop :=
  sign_entry path private_key rf = Some entry.

Inductive signFolder_outcome (private_key_path path : string)
    (ignore_folders : list string) (optional_password : option string)
    (w : world) : bool → world → Prop :=
| key_not_loaded :
    loadPrivateKey private_key_path (password_of optional_password) = None →
    signFolder_outcome private_key_path path ignore_folders optional_password w false w
| walk_aborted k w' :
    loadPrivateKey private_key_path (password_of optional_password) = Some k →
    Exists (cannot_sign (folder_of path) k)
      (eligible_files (folder_of path) ignore_folders (os_walk (folder_of path))) →
    files w' = files w →
    signFolder_outcome private_key_path path ignore_folders optional_password w false w'
| open_failed k es w' :
    loadPrivateKey private_key_path (password_of optional_password) = Some k →
    Forall2 (signs_as (folder_of path) k)
      (eligible_files (folder_of path) ignore_folders (os_walk (folder_of path))) es →
    write_outcome (manifest_path path) = OpenFails →
    files w' = files w →
    signFolder_outcome private_key_path path ignore_folders optional_password w false w'
| dump_failed k es w' :
    loadPrivateKey private_key_path (password_of optional_password) = Some k →
    Forall2 (signs_as (folder_of path) k)
      (eligible_files (folder_of path) ignore_folders (os_walk (folder_of path))) es →
    write_outcome (manifest_path path) = DumpFails →
    files w' = <[manifest_path path := Incomplete]> (files w) →
    signFolder_outcome private_key_path path ignore_folders optional_password w false w'
| signed k es :
    loadPrivateKey private_key_path (password_of optional_password) = Some k →
    Forall2 (signs_as (folder_of path) k)
      (eligible_files (folder_of path) ignore_folders (os_walk (folder_of path))) es →
    write_outcome (manifest_path path) = WriteOk →
    signFolder_outcome private_key_path path ignore_folders optional_password w true
      (World
         (<[manifest_path path := Complete (manifest_doc (set_entries [] es) k)]> (files w))
         (logged w ++ [Log "i" ("Signed folder '" +:+ folder_of path +:+ "'.")])).

End outcomes.

(** ** The two loops as one, and other views of a run *)

Section views.
Context `{TB : TrustBasics} `{os : OS}.

(** The body of the inner loop of [signFolder], run over a list of
    (directory, file name) pairs: the nested loops without their two
    [continue] statements. *)
Fixpoint sign_each (path : string) (private_key : PrivateKey)
    (rfs : list (string * string)) (signatures : dict string) : stmt (dict string) :=
  match rfs with
  | [] => mret signatures
  | (root, filename) :: rest =>
      match getFilePathInfo path root filename with
      | inl e => raise e
      | inr (name_on_disk, name_in_data) =>
          match getFileSignature name_on_disk private_key with
          | None =>
              Logger.logException "e" ("Couldn't sign file '" +:+ name_on_disk +:+ "'.");;
              return_ false
          | Some signature =>
              sign_each path private_key rest (dict_set signatures name_in_data signature)
          end
      end
  end.

(** The messages of [signFolder]. *)
Definition signed_folder_entry (path : string) : log_entry :=
  Log "i" ("Signed folder '" +:+ path +:+ "'.").

Definition folder_failed_entry (path : string) : log_entry :=
  LogException "e" ("Couldn't sign folder '" +:+ path +:+ "'.").

Definition file_failed_entry (name_on_disk : string) : log_entry :=
  LogException "e" ("Couldn't sign file '" +:+ name_on_disk +:+ "'.").

End views.

(** The same operating system with another view of the directories. *)
Definition with_listing (os : OS) (l : string → node) : OS := {|
  getcwd := @getcwd os;
  realpath := @realpath os;
  listing := l;
  write_outcome := @write_outcome os;
|}.

(** A directory without the files called [name] directly inside it. *)
Definition without_file (name : string) (n : node) : node :=
  match n with
  | File => File
  | Dir entries => Dir (filter (λ e, ¬ (e.1 = name ∧ is_dir e.2 = false)) entries)
  end.

(** ** A plug-in folder to run the script on *)

Module demo.

(** A toy signer: the key file "key.pem" carries no password, every file
    can be read but "locked.bin". *)
Definition tb : TrustBasics := {|
  PrivateKey := string;
  loadPrivateKey p pw := if bool_decide (p = "key.pem" ∧ pw = None) then Some "K" else None;
  getFileSignature name k :=
    if bool_decide (posixpath.basename name = "locked.bin") then None
    else Some ("sig(" +:+ name +:+ ")");
  getHashSignature h k := "sign(" +:+ h +:+ ")";
  hash_digest s := "h(" +:+ s +:+ ")";
  getSignaturesLocalFilename := "manifest.json";
|}.

(** The one symbolic link around: "/plugin/sub/link.txt" leads to
    "/etc/passwd". *)
Definition links (p : string) : string :=
  if bool_decide (p = "/plugin/sub/link.txt") then "/etc/passwd" else p.

Definition os_of (tree : node) (out : write_result) : OS := {|
  getcwd := "/plugin";
  realpath := links;
  listing p := if bool_decide (p = "/plugin") then tree else File;
  write_outcome _ := out;
|}.

Definition plugin : node :=
  Dir [("a.txt", File);
       ("__pycache__", Dir [("c.pyc", File); ("deep", Dir [("x.pyc", File)])]);
       ("manifest.json", File);
       ("sub", Dir [("manifest.json", File); ("b.txt", File)])].

Definition plugin_with_link : node :=
  Dir [("a.txt", File); ("sub", Dir [("link.txt", File)])].

Definition plugin_locked : node :=
  Dir [("a.txt", File); ("locked.bin", File)].

Definition only_cache : node :=
  Dir [("manifest.json", File); ("__pycache__", Dir [("c.pyc", File)])].

Definition w0 : world := World ∅ [].

Definition no_options : command_line := {|
  opt_private := None; opt_folder := None; opt_ignore := None; opt_password := None;
|}.

End demo.

(** Two more folders: one with a file after the one that cannot be read,
    one that already holds its manifest next to a second copy of a name. *)
Module more_demo.

Definition locked_in_the_middle : node :=
  Dir [("a.txt", File); ("locked.bin", File); ("z.txt", File)].

Definition signed_before : node :=
  Dir [("manifest.json", File); ("a.txt", File); ("sub", Dir [("b.txt", File)])].

End more_demo.

(** * Properties *)

Example walk_ex :
  walk "/p" (Dir [("a.txt", File); ("sub", Dir [("b.txt", File)])])
  = [("/p", ["sub"], ["a.txt"]); ("/p/sub", [], ["b.txt"])].
Proof. reflexivity. Qed.

Example basename_ex : posixpath.basename "/p/sub" = "sub".
Proof. reflexivity. Qed.

(** ** The loops over the walk *)

Section walk_facts.
Context `{TB : TrustBasics} `{os : OS}.

Lemma eligible_in_cons path root f fs :
  eligible_in path root (f :: fs) =
    if bool_decide (f = getSignaturesLocalFilename ∧ root = path)
    then eligible_in path root fs
    else (root, f) :: eligible_in path root fs.
Proof.
  unfold eligible_in. case_bool_decide.
  - by rewrite filter_cons_False by tauto.
  - by rewrite filter_cons_True.
Qed.

Lemma eligible_files_cons path ign root ds fs items :
  eligible_files path ign ((root, ds, fs) :: items) =
    (if bool_decide (posixpath.basename root ∈ ign) then []
     else eligible_in path root fs) ++ eligible_files path ign items.
Proof. reflexivity. Qed.

Lemma sign_files_success path root key fs es sigs w :
  Forall2 (λ rf e, sign_entry path key rf = Some e) (eligible_in path root fs) es →
  sign_files path root key fs sigs w = (Next (set_entries sigs es), w).
Proof.
  revert es sigs. induction fs as [|f fs IH]; intros es sigs Hes.
  - apply Forall2_nil_inv_l in Hes as ->. reflexivity.
  - rewrite eligible_in_cons in Hes. simpl. case_bool_decide; [by apply IH|].
    apply Forall2_cons_inv_l in Hes as (e & es' & He & Hes' & ->).
    unfold sign_entry in He. simpl in He.
    destruct (getFilePathInfo path root f) as [|[nod nid]]; [done|].
    destruct (getFileSignature nod key) as [s|]; [|done].
    simplify_eq/=. by apply IH.
Qed.

Lemma sign_files_failure path root key fs sigs w :
  Exists (λ rf, sign_entry path key rf = None) (eligible_in path root fs) →
  ∃ c w', sign_files path root key fs sigs w = (c, w')
          ∧ abnormal c ∧ files w' = files w.
Proof.
  revert sigs. induction fs as [|f fs IH]; intros sigs Hex.
  - by apply Exists_nil in Hex.
  - rewrite eligible_in_cons in Hex. simpl. case_bool_decide; [by apply IH|].
    unfold sign_entry at 1 in Hex. apply Exists_cons in Hex. simpl in Hex.
    destruct (getFilePathInfo path root f) as [e|[nod nid]].
    { eexists _, _. split; [reflexivity|]. done. }
    destruct (getFileSignature nod key) as [s|].
    { destruct Hex as [?|Hex]; [done|]. by apply IH. }
    eexists _, _. split; [reflexivity|]. done.
Qed.

Lemma sign_walk_success path ign key items es sigs w :
  Forall2 (λ rf e, sign_entry path key rf = Some e) (eligible_files path ign items) es →
  sign_walk path ign key items sigs w = (Next (set_entries sigs es), w).
Proof.
  revert es sigs. induction items as [|[[root ds] fs] items IH]; intros es sigs Hes.
  - apply Forall2_nil_inv_l in Hes as ->. reflexivity.
  - rewrite eligible_files_cons in Hes. simpl. case_bool_decide; [by apply IH|].
    apply Forall2_app_inv_l in Hes as (es1 & es2 & H1 & H2 & ->).
    unfold mbind, stmt_bind.
    rewrite (sign_files_success _ _ _ _ _ _ _ H1).
    unfold set_entries. rewrite foldl_app. by apply IH.
Qed.

Lemma sign_walk_failure path ign key items sigs w :
  Exists (λ rf, sign_entry path key rf = None) (eligible_files path ign items) →
  ∃ c w', sign_walk path ign key items sigs w = (c, w')
          ∧ abnormal c ∧ files w' = files w.
Proof.
  revert sigs. induction items as [|[[root ds] fs] items IH]; intros sigs Hex.
  - by apply Exists_nil in Hex.
  - rewrite eligible_files_cons in Hex. simpl. case_bool_decide; [by apply IH|].
    apply Exists_app in Hex. unfold mbind, stmt_bind.
    destruct (decide (Exists (λ rf, sign_entry path key rf = None)
                        (eligible_in path root fs))) as [Hfs|Hfs].
    + destruct (sign_files_failure _ _ _ _ sigs w Hfs) as (c & w' & -> & Hc & Hw).
      destruct c as [?|b|e]; [done| |]; eexists _, _; (split; [reflexivity|done]).
    + destruct Hex as [?|Hex]; [done|].
      apply (not_Exists_Forall _) in Hfs.
      assert (∃ es, Forall2 (λ rf e, sign_entry path key rf = Some e)
                      (eligible_in path root fs) es) as [es Hes].
      { clear -Hfs. induction Hfs as [|rf l Hrf _ [es IH]]; [by exists []|].
        simpl in Hrf. destruct (sign_entry path key rf) as [e|] eqn:?; [|by destruct Hrf].
        exists (e :: es). by constructor. }
      rewrite (sign_files_success _ _ _ _ _ _ _ Hes). by apply IH.
Qed.

Lemma signFolder_outcome_holds kp path ign pw w :
  signFolder_outcome kp path ign pw w
    (signFolder kp path ign pw w).1 (signFolder kp path ign pw w).2.
Proof.
  unfold signFolder. fold (folder_of path) (password_of pw).
  destruct (loadPrivateKey kp _) as [k|] eqn:Hk; [|by apply key_not_loaded].
  unfold signFolder_with_key, returned, try_except, signFolder_try.
  unfold mbind, stmt_bind.
  destruct (mapM (sign_entry (folder_of path) k)
              (eligible_files (folder_of path) ign (os_walk (folder_of path))))
    as [es|] eqn:Hes.
  - apply mapM_Some in Hes.
    rewrite (sign_walk_success _ _ _ _ _ [] w Hes).
    fold (manifest_path path). unfold dump_json.
    destruct (write_outcome (manifest_path path)) eqn:Hout; simpl.
    + by eapply open_failed.
    + by eapply dump_failed.
    + by eapply signed.
  - apply mapM_None in Hes.
    destruct (sign_walk_failure _ _ _ _ [] w Hes) as (c & w' & -> & Hc & Hw).
    destruct c as [?|b|e]; [done|simpl in Hc; subst b|]; simpl;
      by eapply walk_aborted.
Qed.

Lemma signFolder_inv kp path ign pw w b w' :
  signFolder kp path ign pw w = (b, w') → signFolder_outcome kp path ign pw w b w'.
Proof.
  intros Heq. pose proof (signFolder_outcome_holds kp path ign pw w) as H.
  by rewrite Heq in H.
Qed.

End walk_facts.

(** ** The order of the keys *)

#[global] Instance key_le_trans : Transitive key_le.
Proof. intros p q r. unfold key_le. apply transitivity. Qed.

#[global] Instance key_le_total : Total key_le.
Proof. intros p q. unfold key_le. apply total, _. Qed.

(** [String.le] is the lexicographic order of the byte values. *)
Lemma string_le_nil (s : string) : ("" ≤ s)%string.
Proof. by destruct s. Qed.

Lemma string_le_cons_nil (a : ascii) (s : string) : ¬ (String a s ≤ "")%string.
Proof. by intros ?. Qed.

Lemma string_le_cons (a b : ascii) (s t : string) :
  (String a s ≤ String b t)%string
  ↔ (N_of_ascii a < N_of_ascii b)%N ∨ (a = b ∧ (s ≤ t)%string).
Proof.
  unfold String.le, String.leb. simpl. unfold Ascii.compare.
  destruct (N.compare_spec (N_of_ascii a) (N_of_ascii b)) as [Heq|Hlt|Hgt]; simpl.
  - assert (a = b) as ->.
    { by rewrite <- (ascii_N_embedding a), <- (ascii_N_embedding b), Heq. }
    split; [by right|]. intros [?|[_ ?]]; [lia|done].
  - split; [by left|done].
  - split; [done|]. intros [?|[-> _]]; lia.
Qed.

Lemma dict_same_key {V : Type} (d : dict V) k v1 v2 :
  NoDup (keys d) → (k, v1) ∈ d → (k, v2) ∈ d → v1 = v2.
Proof.
  unfold keys. induction d as [|[k' v'] d IH]; simpl; intros Hnd H1 H2.
  - by apply elem_of_nil in H1.
  - apply NoDup_cons in Hnd as [Hk' Hnd].
    apply elem_of_cons in H1 as [H1|H1]; apply elem_of_cons in H2 as [H2|H2];
      simplify_eq; [done| | |by apply IH].
    + destruct Hk'. by apply (list_elem_of_fmap_2 fst _ (k', v2)).
    + destruct Hk'. by apply (list_elem_of_fmap_2 fst _ (k', v1)).
Qed.

Lemma sorted_pairs_unique (d1 d2 : dict string) :
  NoDup (keys d1) → d1 ≡ₚ d2 → merge_sort key_le d1 = merge_sort key_le d2.
Proof.
  intros Hnd Hperm.
  apply (StronglySorted_unique_strong key_le).
  - intros [k1 v1] [k2 v2] H1 H2 Hle1 Hle2. unfold key_le in *. simpl in *.
    assert (k1 = k2) as -> by (by apply (anti_symm String.le)).
    rewrite merge_sort_Permutation in H1, H2. rewrite <- Hperm in H2.
    f_equal. by eapply dict_same_key.
  - apply StronglySorted_merge_sort; apply _.
  - apply StronglySorted_merge_sort; apply _.
  - by rewrite !merge_sort_Permutation.
Qed.

(** Assigning keeps the keys of a dictionary distinct. *)
Lemma keys_dict_set {V : Type} (d : dict V) k v :
  keys (dict_set d k v) = if bool_decide (k ∈ keys d) then keys d else keys d ++ [k].
Proof.
  unfold keys. induction d as [|[k' v'] d IH]; [done|].
  simpl dict_set. destruct (decide (k' = k)) as [->|Hne].
  - rewrite (bool_decide_eq_true_2 (k = k)) by done.
    rewrite (bool_decide_eq_true_2 (k ∈ _)) by (simpl; left). done.
  - rewrite (bool_decide_eq_false_2 (k' = k)) by done.
    rewrite !fmap_cons, IH. simpl. destruct (decide (k ∈ d.*1)) as [Hin|Hin].
    + rewrite (bool_decide_eq_true_2 (k ∈ d.*1)) by done.
      rewrite (bool_decide_eq_true_2 (k ∈ k' :: _)) by (by right). done.
    + rewrite (bool_decide_eq_false_2 (k ∈ d.*1)) by done.
      rewrite (bool_decide_eq_false_2 (k ∈ k' :: _)); [done|].
      intros [?|?]%elem_of_cons; by simplify_eq.
Qed.

Lemma NoDup_dict_set {V : Type} (d : dict V) k v :
  NoDup (keys d) → NoDup (keys (dict_set d k v)).
Proof.
  intros Hnd. rewrite keys_dict_set. case_bool_decide as Hin; [done|].
  apply NoDup_app. split_and!; [done| |apply NoDup_singleton].
  intros x Hx ->%list_elem_of_singleton. done.
Qed.

Lemma NoDup_set_entries (d : dict string) es :
  NoDup (keys d) → NoDup (keys (set_entries d es)).
Proof.
  revert d. induction es as [|e es IH]; intros d Hd; [done|].
  simpl. apply IH. by apply NoDup_dict_set.
Qed.

Lemma dict_set_elem_of {V : Type} (d : dict V) k v e :
  e ∈ dict_set d k v → e = (k, v) ∨ e ∈ d.
Proof.
  induction d as [|[k' v'] d IH]; simpl.
  - intros ->%list_elem_of_singleton. by left.
  - case_bool_decide.
    + intros [->|?]%elem_of_cons; [by left|]. right. by right.
    + intros [->|?]%elem_of_cons; [right; by left|].
      destruct IH as [?|?]; [done|by left|]. right. by right.
Qed.

Lemma dict_set_key_in {V : Type} (d : dict V) k v k' :
  k' ∈ keys d ∨ k' = k → k' ∈ keys (dict_set d k v).
Proof.
  rewrite keys_dict_set. case_bool_decide.
  - intros [?| ->]; done.
  - rewrite elem_of_app, list_elem_of_singleton. tauto.
Qed.

Lemma set_entries_elem_of (d : dict string) es e :
  e ∈ set_entries d es → e ∈ d ∨ e ∈ es.
Proof.
  revert d. induction es as [|[k v] es IH]; intros d; simpl; [by left|].
  intros [Hd|?]%IH; [|right; by right].
  apply dict_set_elem_of in Hd as [->|?]; [right; by left|by left].
Qed.

Lemma set_entries_key_in (d : dict string) es k :
  k ∈ keys d ∨ k ∈ es.*1 → k ∈ keys (set_entries d es).
Proof.
  revert d. induction es as [|[k' v'] es IH]; intros d; simpl.
  - intros [?|?%elem_of_nil]; done.
  - intros [?|[->|?]%elem_of_cons]; apply IH.
    + left. apply dict_set_key_in. by left.
    + left. apply dict_set_key_in. by right.
    + by right.
Qed.

(** ** The roots that [os.walk] hands out *)

Lemma node_ind' (P : node → Prop) :
  P File → (∀ es, Forall (λ e, P e.2) es → P (Dir es)) → ∀ n, P n.
Proof.
  intros HF HD. fix IH 1. intros [|es]; [exact HF|].
  apply HD. induction es as [|[name c] es IHes]; constructor; [apply IH|exact IHes].
Qed.

Lemma walk_Dir top es :
  walk top (Dir es) =
    (top, dirnames es, filenames es) :: (e ← es; walk (posixpath.join top e.1) e.2).
Proof.
  simpl. f_equal. induction es as [|[name c] es IH]; [done|].
  simpl. by rewrite IH.
Qed.

Lemma valid_tree_Dir es :
  valid_tree (Dir es) = true ↔ Forall (λ e, valid_name e.1 = true ∧ valid_tree e.2 = true) es.
Proof.
  simpl. induction es as [|[name c] es IH]; [by split|].
  rewrite Forall_cons, <- IH, !andb_true_iff. simpl. tauto.
Qed.

Lemma string_length_app (a b : string) :
  String.length (a +:+ b) = String.length a + String.length b.
Proof. induction a as [|c a IH]; simpl; [done|]. by rewrite IH. Qed.

Lemma join_longer top name :
  valid_name name = true →
  String.length top < String.length (posixpath.join top name).
Proof.
  unfold valid_name, posixpath.join. destruct name as [|c name]; [done|].
  simpl. intros Hsep%negb_true_iff.
  apply orb_false_iff in Hsep as [-> _].
  destruct (_ || _); rewrite !string_length_app; simpl; lia.
Qed.

Lemma walk_roots top n item :
  valid_tree n = true → item ∈ walk top n →
  String.length top ≤ String.length item.1.1.
Proof.
  revert top. induction n as [|es IH] using node_ind'; intros top Hv Hin.
  { by apply elem_of_nil in Hin. }
  rewrite walk_Dir in Hin. apply valid_tree_Dir in Hv.
  apply elem_of_cons in Hin as [->|Hin]; [done|].
  apply list_elem_of_bind in Hin as ([name c] & Hin & He). simpl in Hin.
  rewrite Forall_forall in IH, Hv.
  destruct (Hv _ He) as [Hname Hc]. simpl in *.
  pose proof (IH _ He _ Hc Hin). pose proof (join_longer top name Hname). lia.
Qed.

(** Only the first item of a walk has the top directory as its root. *)
Lemma walk_below_root top n i item :
  valid_tree n = true → walk top n !! S i = Some item → item.1.1 ≠ top.
Proof.
  intros Hv Hi. destruct n as [|es]; [done|].
  rewrite walk_Dir in Hi. simpl in Hi. apply list_elem_of_lookup_2 in Hi.
  apply valid_tree_Dir in Hv.
  apply list_elem_of_bind in Hi as ([name c] & Hin & He). simpl in Hin.
  rewrite Forall_forall in Hv. destruct (Hv _ He) as [Hname Hc]. simpl in *.
  pose proof (walk_roots _ _ _ Hc Hin). pose proof (join_longer top name Hname).
  intros Heq. rewrite Heq in *. lia.
Qed.

Lemma elem_of_eligible_files `{TB : TrustBasics} path ign items root f :
  (root, f) ∈ eligible_files path ign items
  ↔ ∃ ds fs, (root, ds, fs) ∈ items ∧ (posixpath.basename root ∉ ign) ∧ f ∈ fs
             ∧ ¬ (f = getSignaturesLocalFilename ∧ root = path).
Proof.
  unfold eligible_files, eligible_in. rewrite list_elem_of_bind. split.
  - intros ([[root' ds] fs] & Hin & Hitem). simpl in Hin.
    case_bool_decide; [by apply elem_of_nil in Hin|].
    apply list_elem_of_fmap in Hin as (f' & Heq & Hf). simplify_eq.
    apply list_elem_of_filter in Hf as [Hf ?]. by exists ds, fs.
  - intros (ds & fs & Hitem & Hign & Hf & Hskip).
    exists (root, ds, fs). split; [|done]. simpl.
    rewrite bool_decide_eq_false_2 by done.
    apply list_elem_of_fmap. exists f. split; [done|].
    by apply list_elem_of_filter.
Qed.

Example run_plugin :
  let r := signFolder (TB := demo.tb) (os := demo.os_of demo.plugin WriteOk)
             "key.pem" "." ["__pycache__"] (Some "") demo.w0 in
  r.1 = true
  ∧ files r.2 !! "/plugin/manifest.json" =
      Some (Complete (JObj
        [("root_signatures",
          JObj [("a.txt", JStr "sig(/plugin/a.txt)");
                ("__pycache__/deep/x.pyc", JStr "sig(/plugin/__pycache__/deep/x.pyc)");
                ("sub/manifest.json", JStr "sig(/plugin/sub/manifest.json)");
                ("sub/b.txt", JStr "sig(/plugin/sub/b.txt)")]);
         ("root_manifest_signature",
          JStr "sign(h(__pycache__/deep/x.pycsig(/plugin/__pycache__/deep/x.pyc)a.txtsig(/plugin/a.txt)sub/b.txtsig(/plugin/sub/b.txt)sub/manifest.jsonsig(/plugin/sub/manifest.json)))")]))
  ∧ logged r.2 = [Log "i" "Signed folder '/plugin'."].
Proof. vm_compute. done. Qed.

(** ** The self-signature *)

Lemma wrapped_signatures_fields (signatures : dict string) (self_signature : string) :
  wrapped_signatures signatures self_signature =
    [("root_signatures", JObj (prod_map id JStr <$> signatures));
     ("root_manifest_signature", JStr self_signature)].
Proof. reflexivity. Qed.

(** The digest of every mapping is the digest of its pairs, sorted by key
    and concatenated. *)
Lemma getSelfSignHash_sorted `{TB : TrustBasics} (signatures : dict string) :
  ∃ sorted,
    sorted ≡ₚ signatures ∧ StronglySorted key_le sorted
    ∧ getSelfSignHash signatures = hash_digest (concat_pairs sorted).
Proof.
  exists (merge_sort key_le signatures). split_and!.
  - apply merge_sort_Permutation.
  - apply StronglySorted_merge_sort; apply _.
  - reflexivity.
Qed.

(** C1 — whenever [signFolder] succeeds, the document it has written holds
    a per-file mapping [signatures] and, as self-signature, the signature
    under the loaded private key of the digest of [key0 signature0 key1
    signature1 ...], the pairs of [signatures] taken in ascending byte-wise
    order of their keys and concatenated with nothing in between. *)
Theorem C1_self_signature_signs_sorted_concatenation `{TB : TrustBasics} `{os : OS}
    (kp path : string) (ign : list string) (pw : option string) (w w' : world) :
  signFolder kp path ign pw w = (true, w') →
  ∃ (k : PrivateKey) (signatures sorted : dict string),
    loadPrivateKey kp (password_of pw) = Some k
    ∧ NoDup (keys signatures)
    ∧ sorted ≡ₚ signatures
    ∧ StronglySorted key_le sorted
    ∧ getSelfSignHash signatures = hash_digest (concat_pairs sorted)
    ∧ files w' !! manifest_path path =
        Some (Complete (JObj
          [(getRootSignatureCategory, JObj (prod_map id JStr <$> signatures));
           (getRootSignedManifestKey,
            JStr (getHashSignature (hash_digest (concat_pairs sorted)) k))])).
Proof.
  intros Hrun. apply signFolder_inv in Hrun.
  inversion Hrun as [| | | |k es Hk Hes Hout]; subst.
  destruct (getSelfSignHash_sorted (set_entries [] es)) as (sorted & Hperm & Hsorted & Hhash).
  exists k, (set_entries [] es), sorted. split_and!; [done| |done..|].
  { apply NoDup_set_entries, NoDup_nil_2. }
  simpl. rewrite lookup_insert_eq. unfold manifest_doc.
  by rewrite wrapped_signatures_fields, Hhash.
Qed.

Lemma C1_witness :
  ∃ (k : @PrivateKey demo.tb) (signatures sorted : dict string),
    @loadPrivateKey demo.tb "key.pem" None = Some k
    ∧ NoDup (keys signatures)
    ∧ sorted ≡ₚ signatures
    ∧ StronglySorted key_le sorted
    ∧ @getSelfSignHash demo.tb signatures = @hash_digest demo.tb (concat_pairs sorted)
    ∧ files (signFolder (TB := demo.tb) (os := demo.os_of demo.plugin WriteOk)
               "key.pem" "/plugin" ["__pycache__"] None demo.w0).2
        !! "/plugin/manifest.json" =
        Some (Complete (JObj
          [("root_signatures", JObj (prod_map id JStr <$> signatures));
           ("root_manifest_signature",
            JStr (@getHashSignature demo.tb
                    (@hash_digest demo.tb (concat_pairs sorted)) k))])).
Proof.
  apply (C1_self_signature_signs_sorted_concatenation
           (TB := demo.tb) (os := demo.os_of demo.plugin WriteOk)
           "key.pem" "/plugin" ["__pycache__"] None demo.w0).
  vm_compute. reflexivity.
Defined.

(** C6 — two dictionaries that hold the same pairs, in whatever order,
    have the same self-sign digest. *)
Theorem C6_self_sign_digest_ignores_order `{TB : TrustBasics} (d1 d2 : dict string) :
  NoDup (keys d1) → d1 ≡ₚ d2 → getSelfSignHash d1 = getSelfSignHash d2.
Proof.
  intros Hnd Hperm. unfold getSelfSignHash. by rewrite (sorted_pairs_unique d1 d2).
Qed.

Lemma C6_witness :
  @getSelfSignHash demo.tb [("sub/b.txt", "s2"); ("a.txt", "s1")]
  = @getSelfSignHash demo.tb [("a.txt", "s1"); ("sub/b.txt", "s2")].
Proof.
  apply (C6_self_sign_digest_ignores_order (TB := demo.tb)).
  - refine (bool_decide_unpack _ _). vm_compute. exact I.
  - apply perm_swap.
Defined.

(** ** Runs that fail, runs that succeed *)

Lemma Forall2_signs_as_inv `{TB : TrustBasics} `{os : OS} path k l es rf :
  Forall2 (signs_as path k) l es → rf ∈ l →
  ∃ e, e ∈ es ∧ sign_entry path k rf = Some e.
Proof.
  intros HF Hin. apply list_elem_of_lookup_1 in Hin as [i Hi].
  destruct (Forall2_lookup_l _ _ _ _ _ HF Hi) as (e & He & Hs).
  exists e. split; [by eapply list_elem_of_lookup_2|done].
Qed.

Lemma Forall2_signs_as_inv_r `{TB : TrustBasics} `{os : OS} path k l es e :
  Forall2 (signs_as path k) l es → e ∈ es →
  ∃ rf, rf ∈ l ∧ sign_entry path k rf = Some e.
Proof.
  intros HF Hin. apply list_elem_of_lookup_1 in Hin as [i Hi].
  destruct (Forall2_lookup_r _ _ _ _ _ HF Hi) as (rf & Hrf & Hs).
  exists rf. split; [by eapply list_elem_of_lookup_2|done].
Qed.

Lemma signs_as_not_cannot_sign `{TB : TrustBasics} `{os : OS} path k l es :
  Forall2 (signs_as path k) l es → Exists (cannot_sign path k) l → False.
Proof.
  intros HF (rf & Hin & Hno)%Exists_exists.
  destruct (Forall2_signs_as_inv _ _ _ _ _ HF Hin) as (e & _ & He).
  unfold cannot_sign in Hno. congruence.
Qed.

(** C2 — a file that reaches the signing step and whose resolved path lies
    outside the resolved root makes [signFolder] return [False] and leave
    the files as they were: it is neither passed over nor signed. *)
Theorem C2_file_outside_root_fails_the_build `{TB : TrustBasics} `{os : OS}
    (kp path : string) (ign : list string) (pw : option string) (w : world)
    (root : string) (ds fs : list string) (filename : string) :
  (root, ds, fs) ∈ os_walk (folder_of path) →
  posixpath.basename root ∉ ign →
  filename ∈ fs →
  ¬ (filename = getSignaturesLocalFilename ∧ root = folder_of path) →
  posixpath.is_descendant (realpath (folder_of path))
    (realpath (posixpath.join root filename)) = false →
  (signFolder kp path ign pw w).1 = false
  ∧ files (signFolder kp path ign pw w).2 = files w.
Proof.
  intros Hitem Hign Hf Hskip Hout.
  assert ((root, filename) ∈
            eligible_files (folder_of path) ign (os_walk (folder_of path))) as Hel.
  { apply elem_of_eligible_files. by exists ds, fs. }
  assert (∀ k, sign_entry (folder_of path) k (root, filename) = None) as Hno.
  { intros k. unfold sign_entry, getFilePathInfo. simpl. by rewrite Hout. }
  destruct (signFolder kp path ign pw w) as [b w'] eqn:Hrun.
  apply signFolder_inv in Hrun. simpl.
  inversion Hrun as [| | |k es ? Hk Hes|k es Hk Hes]; subst; try done.
  - destruct (Forall2_signs_as_inv _ _ _ _ _ Hes Hel) as (e & _ & He).
    by rewrite Hno in He.
  - destruct (Forall2_signs_as_inv _ _ _ _ _ Hes Hel) as (e & _ & He).
    by rewrite Hno in He.
Qed.

Lemma C2_witness :
  (signFolder (TB := demo.tb) (os := demo.os_of demo.plugin_with_link WriteOk)
     "key.pem" "/plugin" ["__pycache__"] None demo.w0).1 = false
  ∧ files (signFolder (TB := demo.tb) (os := demo.os_of demo.plugin_with_link WriteOk)
             "key.pem" "/plugin" ["__pycache__"] None demo.w0).2 = files demo.w0.
Proof.
  apply (C2_file_outside_root_fails_the_build
           (TB := demo.tb) (os := demo.os_of demo.plugin_with_link WriteOk)
           "key.pem" "/plugin" ["__pycache__"] None demo.w0
           "/plugin/sub" [] ["link.txt"] "link.txt").
  - vm_compute. right. left.
  - refine (bool_decide_unpack _ _). vm_compute. exact I.
  - left.
  - intros [? _]. discriminate.
  - vm_compute. reflexivity.
Defined.

(** C4, as the specification words it, fails: when [json.dump] raises
    after the manifest file was opened for writing, [signFolder] returns
    [False] and yet a manifest file, an incomplete one, is on disk. *)
Lemma C4_counterexample :
  @write_outcome (demo.os_of demo.plugin DumpFails) "/plugin/manifest.json" = DumpFails
  ∧ (signFolder (TB := demo.tb) (os := demo.os_of demo.plugin DumpFails)
       "key.pem" "/plugin" ["__pycache__"] None demo.w0).1 = false
  ∧ files demo.w0 !! "/plugin/manifest.json" = None
  ∧ files (signFolder (TB := demo.tb) (os := demo.os_of demo.plugin DumpFails)
             "key.pem" "/plugin" ["__pycache__"] None demo.w0).2
      !! "/plugin/manifest.json" = Some Incomplete.
Proof. vm_compute. done. Qed.

(** C4, amended — [signFolder] returns [False] as soon as a step fails
    (the key does not load, a file that reaches the signing step cannot be
    signed or raises, the manifest file cannot be opened or written).  When
    it returns [False] the files are as they were, except when [json.dump]
    raised after the manifest file was opened: then that file is left
    incomplete.  When it returns [True] the key was loaded, every file that
    reached the signing step was signed, and the complete document of these
    signatures has been written. *)
Theorem C4_failure_is_reported_and_no_complete_manifest_written
    `{TB : TrustBasics} `{os : OS}
    (kp path : string) (ign : list string) (pw : option string) (w w' : world) (b : bool) :
  signFolder kp path ign pw w = (b, w') →
  let password := password_of pw in
  let eligible := eligible_files (folder_of path) ign (os_walk (folder_of path)) in
  (loadPrivateKey kp password = None
   ∨ (∃ k, loadPrivateKey kp password = Some k ∧ Exists (cannot_sign (folder_of path) k) eligible)
   ∨ write_outcome (manifest_path path) ≠ WriteOk → b = false)
  ∧ (b = false →
     files w' = files w
     ∨ (write_outcome (manifest_path path) = DumpFails
        ∧ files w' = <[manifest_path path := Incomplete]> (files w)))
  ∧ (b = true →
     ∃ k es,
       loadPrivateKey kp password = Some k
       ∧ Forall2 (signs_as (folder_of path) k) eligible es
       ∧ write_outcome (manifest_path path) = WriteOk
       ∧ files w' =
           <[manifest_path path := Complete (manifest_doc (set_entries [] es) k)]> (files w)).
Proof.
  intros Hrun password eligible. subst password eligible.
  apply signFolder_inv in Hrun.
  inversion Hrun as [| | |k es ? Hk Hes Hout|k es Hk Hes Hout]; subst.
  - split_and!; [done|by left|done].
  - split_and!; [done|by left|done].
  - split_and!; [done|by left|done].
  - split_and!; [done|by right|done].
  - split_and!; [|done|by eauto 10].
    intros [Hnone|[(k' & Hk' & Hex)|Hw]].
    + congruence.
    + rewrite Hk in Hk'. simplify_eq. by destruct (signs_as_not_cannot_sign _ _ _ _ Hes Hex).
    + done.
Qed.

Lemma C4_witness :
  (@loadPrivateKey demo.tb "key.pem" None = None
   ∨ (∃ k, @loadPrivateKey demo.tb "key.pem" None = Some k
           ∧ Exists (cannot_sign (TB := demo.tb) (os := demo.os_of demo.plugin_locked WriteOk)
                       "/plugin" k)
               (eligible_files (TB := demo.tb) "/plugin" ["__pycache__"]
                  (@os_walk (demo.os_of demo.plugin_locked WriteOk) "/plugin")))
   ∨ @write_outcome (demo.os_of demo.plugin_locked WriteOk) "/plugin/manifest.json" ≠ WriteOk
   → false = false)
  ∧ (false = false →
     files (World ∅ [LogException "e" "Couldn't sign file '/plugin/locked.bin'."]) = files demo.w0
     ∨ (@write_outcome (demo.os_of demo.plugin_locked WriteOk) "/plugin/manifest.json" = DumpFails
        ∧ files (World ∅ [LogException "e" "Couldn't sign file '/plugin/locked.bin'."])
          = <["/plugin/manifest.json" := Incomplete]> (files demo.w0))).
Proof.
  pose proof (C4_failure_is_reported_and_no_complete_manifest_written
                (TB := demo.tb) (os := demo.os_of demo.plugin_locked WriteOk)
                "key.pem" "/plugin" ["__pycache__"] None demo.w0
                (World ∅ [LogException "e" "Couldn't sign file '/plugin/locked.bin'."])
                false) as H.
  destruct H as (H1 & H2 & _).
  - vm_compute. reflexivity.
  - split; [exact H1|exact H2].
Defined.

(** C8 — when no file under the root reaches the signing step (each is in
    a directory with an ignored basename, or is the manifest file of the
    root), when the key loads and the manifest file can be written,
    [signFolder] returns [True] and writes a manifest whose per-file mapping
    is empty and whose self-signature signs the digest of the empty
    concatenation. *)
Theorem C8_empty_folder_is_signed `{TB : TrustBasics} `{os : OS}
    (kp path : string) (ign : list string) (pw : option string) (w : world)
    (k : PrivateKey) :
  loadPrivateKey kp (password_of pw) = Some k →
  (∀ root ds fs f,
     (root, ds, fs) ∈ os_walk (folder_of path) → f ∈ fs →
     posixpath.basename root ∈ ign
     ∨ (f = getSignaturesLocalFilename ∧ root = folder_of path)) →
  write_outcome (manifest_path path) = WriteOk →
  (signFolder kp path ign pw w).1 = true
  ∧ files (signFolder kp path ign pw w).2 =
      <[manifest_path path :=
          Complete (JObj [("root_signatures", JObj []);
                          ("root_manifest_signature",
                           JStr (getHashSignature (hash_digest "") k))])]> (files w).
Proof.
  intros Hk Hnone Hout.
  assert (eligible_files (folder_of path) ign (os_walk (folder_of path)) = []) as Hel.
  { apply elem_of_nil_inv. intros [root f] Hin.
    apply elem_of_eligible_files in Hin as (ds & fs & Hitem & Hign & Hf & Hskip).
    destruct (Hnone _ _ _ _ Hitem Hf); done. }
  destruct (signFolder kp path ign pw w) as [b w'] eqn:Hrun.
  apply signFolder_inv in Hrun. simpl.
  inversion Hrun as [|? ? ? Hex| | |k' es Hk' Hes]; subst; try congruence.
  - rewrite Hel in Hex. by apply Exists_nil in Hex.
  - rewrite Hel in Hes. apply Forall2_nil_inv_l in Hes as ->.
    rewrite Hk in Hk'. by simplify_eq.
Qed.

Lemma C8_witness :
  (signFolder (TB := demo.tb) (os := demo.os_of demo.only_cache WriteOk)
     "key.pem" "." ["__pycache__"] (Some "") demo.w0).1 = true
  ∧ files (signFolder (TB := demo.tb) (os := demo.os_of demo.only_cache WriteOk)
             "key.pem" "." ["__pycache__"] (Some "") demo.w0).2 =
      <["/plugin/manifest.json" :=
          Complete (JObj [("root_signatures", JObj []);
                          ("root_manifest_signature", JStr "sign(h())")])]> (files demo.w0).
Proof.
  apply (C8_empty_folder_is_signed
           (TB := demo.tb) (os := demo.os_of demo.only_cache WriteOk)
           "key.pem" "." ["__pycache__"] (Some "") demo.w0 "K").
  - vm_compute. reflexivity.
  - intros root ds fs f Hitem Hf. vm_compute in Hitem.
    apply elem_of_cons in Hitem as [Hitem|Hitem].
    + right. simplify_eq. apply list_elem_of_singleton in Hf as ->. done.
    + left. apply list_elem_of_singleton in Hitem. simplify_eq.
      refine (bool_decide_unpack _ _). vm_compute. exact I.
  - reflexivity.
Defined.

(** C9 — every document that is on disk after a run of [signFolder] and
    was not there before is the manifest of the signed folder, written by a
    run that returns [True]; it has exactly two top-level fields,
    "root_signatures", which holds a mapping from keys to strings, and
    "root_manifest_signature", which holds a string. *)
Theorem C9_manifest_document_has_two_fixed_fields `{TB : TrustBasics} `{os : OS}
    (kp path : string) (ign : list string) (pw : option string) (w w' : world) (b : bool)
    (name : string) (doc : json) :
  signFolder kp path ign pw w = (b, w') →
  files w' !! name = Some (Complete doc) →
  files w !! name ≠ Some (Complete doc) →
  name = manifest_path path ∧ b = true
  ∧ ∃ (mapping : dict string) (self_signature : string),
      doc = JObj [("root_signatures", JObj (prod_map id JStr <$> mapping));
                  ("root_manifest_signature", JStr self_signature)].
Proof.
  intros Hrun Hdoc Hnew. apply signFolder_inv in Hrun.
  inversion Hrun as [| | |k es ? Hk Hes Hout Hfiles|k es Hk Hes Hout]; subst;
    try congruence.
  - rewrite Hfiles in Hdoc. apply lookup_insert_Some in Hdoc as [[_ ?]|[_ ?]]; done.
  - simpl in Hdoc. apply lookup_insert_Some in Hdoc as [[<- Heq]|[_ ?]]; [|done].
    split_and!; [done..|]. simplify_eq. unfold manifest_doc. eauto.
Qed.

Lemma C9_witness :
  "/plugin/manifest.json" = @manifest_path demo.tb (demo.os_of demo.only_cache WriteOk) "."
  ∧ true = true
  ∧ ∃ (mapping : dict string) (self_signature : string),
      JObj [("root_signatures", JObj []); ("root_manifest_signature", JStr "sign(h())")]
      = JObj [("root_signatures", JObj (prod_map id JStr <$> mapping));
              ("root_manifest_signature", JStr self_signature)].
Proof.
  apply (C9_manifest_document_has_two_fixed_fields
           (TB := demo.tb) (os := demo.os_of demo.only_cache WriteOk)
           "key.pem" "." ["__pycache__"] (Some "") demo.w0
           (signFolder (TB := demo.tb) (os := demo.os_of demo.only_cache WriteOk)
              "key.pem" "." ["__pycache__"] (Some "") demo.w0).2
           true "/plugin/manifest.json").
  - vm_compute. reflexivity.
  - vm_compute. reflexivity.
  - vm_compute. discriminate.
Defined.

(** C10 — with the empty string as [optional_password] the key is loaded
    with the password [None], and the run is the run without a password. *)
Theorem C10_empty_password_is_no_password `{TB : TrustBasics} `{os : OS}
    (kp path : string) (ign : list string) (w : world) :
  signFolder kp path ign (Some "") w
    = signFolder_with_key (folder_of path) ign (loadPrivateKey kp None) w
  ∧ signFolder kp path ign (Some "") w = signFolder kp path ign None w.
Proof. split; reflexivity. Qed.

(** ** The manifest's own file and the ignored folders *)

Lemma walk_first top n item : walk top n !! 0 = Some item → item.1.1 = top.
Proof. destruct n as [|es]; [done|]. rewrite walk_Dir. by intros [= <-]. Qed.

(** C7 — in a run that succeeds, every entry of the per-file mapping comes
    from a file that is not the manifest-named file of the root directory
    (item 0 of the walk), and every other file in a directory whose
    basename is not ignored, the manifest-named files of the sub-folders
    (items 1, 2, ...) among them, has its key in the mapping. *)
Theorem C7_manifest_name_is_skipped_only_at_the_root `{TB : TrustBasics} `{os : OS}
    (kp path : string) (ign : list string) (pw : option string) (w w' : world) :
  valid_tree (listing (folder_of path)) = true →
  signFolder kp path ign pw w = (true, w') →
  ∃ (k : PrivateKey) (signatures : dict string) (self_signature : string),
    files w' !! manifest_path path =
      Some (Complete (JObj (wrapped_signatures signatures self_signature)))
    ∧ (∀ key s, (key, s) ∈ signatures →
         ∃ i root ds fs f,
           os_walk (folder_of path) !! i = Some (root, ds, fs) ∧ f ∈ fs
           ∧ (posixpath.basename root ∉ ign)
           ∧ ¬ (i = 0 ∧ f = getSignaturesLocalFilename)
           ∧ sign_entry (folder_of path) k (root, f) = Some (key, s))
    ∧ (∀ i root ds fs f,
         os_walk (folder_of path) !! i = Some (root, ds, fs) → f ∈ fs →
         posixpath.basename root ∉ ign →
         ¬ (i = 0 ∧ f = getSignaturesLocalFilename) →
         ∃ key s, sign_entry (folder_of path) k (root, f) = Some (key, s)
                  ∧ key ∈ keys signatures)
    ∧ (∀ i root ds fs,
         os_walk (folder_of path) !! S i = Some (root, ds, fs) →
         getSignaturesLocalFilename ∈ fs →
         posixpath.basename root ∉ ign →
         ∃ key s,
           sign_entry (folder_of path) k (root, getSignaturesLocalFilename) = Some (key, s)
           ∧ key ∈ keys signatures).
Proof.
  intros Hvalid Hrun. apply signFolder_inv in Hrun.
  inversion Hrun as [| | | |k es Hk Hes Hout]; subst.
  exists k, (set_entries [] es), (getHashSignature (getSelfSignHash (set_entries [] es)) k).
  assert (∀ i root ds fs f,
            os_walk (folder_of path) !! i = Some (root, ds, fs) → f ∈ fs →
            posixpath.basename root ∉ ign →
            ¬ (i = 0 ∧ f = getSignaturesLocalFilename) →
            ∃ key s, sign_entry (folder_of path) k (root, f) = Some (key, s)
                     ∧ key ∈ keys (set_entries [] es)) as Hincluded.
  { intros i root ds fs f Hi Hf Hign Hskip.
    assert ((root, f) ∈ eligible_files (folder_of path) ign (os_walk (folder_of path)))
      as Hel.
    { apply elem_of_eligible_files. exists ds, fs. split_and!; [|done..|].
      - by eapply list_elem_of_lookup_2.
      - intros [-> Hroot]. destruct i as [|i]; [by destruct Hskip|].
        by apply (walk_below_root _ _ _ _ Hvalid Hi). }
    destruct (Forall2_signs_as_inv _ _ _ _ _ Hes Hel) as ([key s] & Hin & He).
    exists key, s. split; [done|]. apply set_entries_key_in. right.
    by apply (list_elem_of_fmap_2 fst _ (key, s)). }
  split_and!.
  - simpl. by rewrite lookup_insert_eq.
  - intros key s Hin.
    apply set_entries_elem_of in Hin as [Hin|Hin]; [by apply elem_of_nil in Hin|].
    destruct (Forall2_signs_as_inv_r _ _ _ _ _ Hes Hin) as ([root f] & Hel & He).
    apply elem_of_eligible_files in Hel as (ds & fs & Hitem & Hign & Hf & Hskip).
    apply list_elem_of_lookup_1 in Hitem as [i Hi].
    exists i, root, ds, fs, f. split_and!; [done..| |done].
    intros [-> ->]. apply Hskip. split; [done|].
    by apply (walk_first _ _ _ Hi).
  - exact Hincluded.
  - intros i root ds fs Hi Hf Hign.
    apply (Hincluded (S i) root ds fs); [done..|]. by intros [? _].
Qed.

Lemma C7_witness :
  ∃ (k : @PrivateKey demo.tb) (signatures : dict string) (self_signature : string),
    files (signFolder (TB := demo.tb) (os := demo.os_of demo.plugin WriteOk)
             "key.pem" "/plugin" ["__pycache__"] None demo.w0).2
      !! "/plugin/manifest.json" =
      Some (Complete (JObj (wrapped_signatures signatures self_signature)))
    ∧ (∀ key s, (key, s) ∈ signatures →
         ∃ i root ds fs f,
           @os_walk (demo.os_of demo.plugin WriteOk) "/plugin" !! i = Some (root, ds, fs)
           ∧ f ∈ fs
           ∧ (posixpath.basename root ∉ ["__pycache__"])
           ∧ ¬ (i = 0 ∧ f = "manifest.json")
           ∧ sign_entry (TB := demo.tb) (os := demo.os_of demo.plugin WriteOk)
               "/plugin" k (root, f) = Some (key, s))
    ∧ (∃ key s,
         sign_entry (TB := demo.tb) (os := demo.os_of demo.plugin WriteOk)
           "/plugin" k ("/plugin/sub", "manifest.json") = Some (key, s)
         ∧ key ∈ keys signatures).
Proof.
  destruct (C7_manifest_name_is_skipped_only_at_the_root
              (TB := demo.tb) (os := demo.os_of demo.plugin WriteOk)
              "key.pem" "/plugin" ["__pycache__"] None demo.w0
              (signFolder (TB := demo.tb) (os := demo.os_of demo.plugin WriteOk)
                 "key.pem" "/plugin" ["__pycache__"] None demo.w0).2)
    as (k & signatures & self_signature & Hfile & Hfrom & _ & Hsub).
  - vm_compute. reflexivity.
  - vm_compute. reflexivity.
  - exists k, signatures, self_signature. split_and!; [exact Hfile|exact Hfrom|].
    apply (Hsub 2 "/plugin/sub" [] ["manifest.json"; "b.txt"]).
    + vm_compute. reflexivity.
    + left.
    + refine (bool_decide_unpack _ _). vm_compute. exact I.
Defined.

(** C3, on the code: the walk passes over the files directly inside a
    directory whose basename is ignored and goes on into its
    sub-directories.  With "__pycache__" ignored, "__pycache__/c.pyc" is
    left out and "__pycache__/deep/x.pyc" is signed. *)
Theorem C3_file_deeper_below_ignored_folder_is_signed :
  let r := signFolder (TB := demo.tb) (os := demo.os_of demo.plugin WriteOk)
             "key.pem" "/plugin" ["__pycache__"] None demo.w0 in
  r.1 = true
  ∧ ∃ signatures self_signature,
      files r.2 !! "/plugin/manifest.json" =
        Some (Complete (JObj (wrapped_signatures signatures self_signature)))
      ∧ dict_get signatures "__pycache__/c.pyc" = None
      ∧ dict_get signatures "__pycache__/deep/x.pyc"
        = Some "sig(/plugin/__pycache__/deep/x.pyc)".
Proof.
  split; [vm_compute; reflexivity|].
  exists [("a.txt", "sig(/plugin/a.txt)");
          ("__pycache__/deep/x.pyc", "sig(/plugin/__pycache__/deep/x.pyc)");
          ("sub/manifest.json", "sig(/plugin/sub/manifest.json)");
          ("sub/b.txt", "sig(/plugin/sub/b.txt)")].
  eexists. split_and!; vm_compute; reflexivity.
Qed.

(** The files directly inside a directory with an ignored basename never
    reach the signing step. *)
Lemma ignored_folder_files_not_eligible `{TB : TrustBasics} path ign items root f :
  posixpath.basename root ∈ ign → (root, f) ∉ eligible_files path ign items.
Proof.
  intros Hign Hin. by apply elem_of_eligible_files in Hin as (_ & _ & _ & ? & _).
Qed.

(** The exit status of the script is 0 whatever [signFolder] returns. *)
Lemma script_exit_status `{TB : TrustBasics} `{os : OS} argv w : (script argv w).1 = 0%Z.
Proof. unfold script, mainfunc. by destruct (signFolder _ _ _ _ _). Qed.

(** C5, on the code: [mainfunc] drops what [signFolder] returns, so
    [sys.exit(mainfunc())] is [sys.exit(None)].  With a key that cannot be
    loaded [signFolder] returns [False] and the exit status is 0. *)
Theorem C5_exit_status_is_zero_when_signing_fails :
  (signFolder (TB := demo.tb) (os := demo.os_of demo.plugin WriteOk)
     DEFAULT_PRIVATE_KEY_PATH DEFAULT_TO_SIGN_FOLDER DEFAULT_IGNORE_SUBFOLDERS
     (Some DEFAULT_PASSWORD) demo.w0).1 = false
  ∧ (script (TB := demo.tb) (os := demo.os_of demo.plugin WriteOk)
       demo.no_options demo.w0).1 = 0%Z.
Proof. split; vm_compute; reflexivity. Qed.

(** * Further properties of [signFolder] and [mainfunc] *)

(** ** The nested loops are one loop over the eligible files *)

Section loop_facts.
Context `{TB : TrustBasics} `{os : OS}.

Lemma sign_each_app path k l1 l2 sigs w :
  sign_each path k (l1 ++ l2) sigs w
  = (sigs' ← sign_each path k l1 sigs; sign_each path k l2 sigs') w.
Proof.
  revert sigs. induction l1 as [|[root f] l1 IH]; intros sigs; [done|].
  simpl. unfold mbind, stmt_bind in *.
  destruct (getFilePathInfo path root f) as [e|[nod nid]]; [done|].
  destruct (getFileSignature nod k) as [s|]; [apply IH|done].
Qed.

Lemma sign_files_flat path root k fs sigs w :
  sign_files path root k fs sigs w = sign_each path k (eligible_in path root fs) sigs w.
Proof.
  revert sigs. induction fs as [|f fs IH]; intros sigs; [done|].
  rewrite eligible_in_cons. simpl. case_bool_decide; [apply IH|].
  simpl. destruct (getFilePathInfo path root f) as [e|[nod nid]]; [done|].
  destruct (getFileSignature nod k) as [s|]; [apply IH|done].
Qed.

Lemma sign_walk_flat path ign k items sigs w :
  sign_walk path ign k items sigs w
  = sign_each path k (eligible_files path ign items) sigs w.
Proof.
  revert sigs w. induction items as [|[[root ds] fs] items IH]; intros sigs w; [done|].
  rewrite eligible_files_cons. simpl. case_bool_decide; [apply IH|].
  rewrite sign_each_app. unfold mbind, stmt_bind.
  rewrite sign_files_flat.
  destruct (sign_each path k (eligible_in path root fs) sigs w) as [[sigs'|b|e] w'];
    [apply IH|done..].
Qed.

(** X1 — the two nested loops of [signFolder], with the [continue] for an
    ignored directory and the [continue] for the manifest file of the root,
    do what one loop does over the eligible files taken in walk order: same
    completion, same dictionary, same log.  So two walks with the same
    eligible files end alike, whatever else they list. *)
Theorem X1_nested_loops_are_one_loop_over_eligible_files path ign k items sigs w :
  sign_walk path ign k items sigs w
    = sign_each path k (eligible_files path ign items) sigs w
  ∧ ∀ items', eligible_files path ign items' = eligible_files path ign items →
              sign_walk path ign k items' sigs w = sign_walk path ign k items sigs w.
Proof.
  split; [apply sign_walk_flat|].
  intros items' Heq. rewrite !sign_walk_flat. by rewrite Heq.
Qed.

Lemma sign_each_success path k l es sigs w :
  Forall2 (signs_as path k) l es →
  sign_each path k l sigs w = (Next (set_entries sigs es), w).
Proof.
  revert es sigs. induction l as [|[root f] l IH]; intros es sigs Hes.
  - apply Forall2_nil_inv_l in Hes as ->. reflexivity.
  - apply Forall2_cons_inv_l in Hes as (e & es' & He & Hes' & ->).
    unfold signs_as, sign_entry in He. simpl in *.
    destruct (getFilePathInfo path root f) as [|[nod nid]]; [done|].
    destruct (getFileSignature nod k) as [s|]; [|done].
    simplify_eq/=. by apply IH.
Qed.

(** The loop ends at the first file that cannot be signed; the files
    after it play no part. *)
Lemma sign_each_stops path k ok es root f rest sigs w :
  Forall2 (signs_as path k) ok es →
  sign_entry path k (root, f) = None →
  sign_each path k (ok ++ (root, f) :: rest) sigs w
  = match getFilePathInfo path root f with
    | inl e => (Raise e, w)
    | inr (name_on_disk, _) =>
        (Return false, World (files w) (logged w ++ [file_failed_entry name_on_disk]))
    end.
Proof.
  intros Hok Hno. rewrite sign_each_app. unfold mbind, stmt_bind.
  rewrite (sign_each_success _ _ _ _ sigs w Hok). simpl.
  unfold sign_entry in Hno. simpl in Hno.
  destruct (getFilePathInfo path root f) as [e|[nod nid]]; [done|].
  destruct (getFileSignature nod k) as [s|]; [done|]. reflexivity.
Qed.

(** A list of files either signs as a whole or has a first file that
    cannot be signed. *)
Lemma sign_entries_or_first_failure path k (l : list (string * string)) :
  (∃ es, Forall2 (signs_as path k) l es)
  ∨ (∃ ok es rf rest, l = ok ++ rf :: rest ∧ Forall2 (signs_as path k) ok es
                      ∧ sign_entry path k rf = None).
Proof.
  induction l as [|rf l IH]; [left; by exists []|].
  destruct (sign_entry path k rf) as [e|] eqn:He.
  - destruct IH as [[es Hes]|(ok & es & rf' & rest & -> & Hok & Hno)].
    + left. exists (e :: es). by constructor.
    + right. exists (rf :: ok), (e :: es), rf', rest. split_and!; [done| |done].
      by constructor.
  - right. exists [], [], rf, l. split_and!; [done|constructor|done].
Qed.

(** What [signFolder] does once the key is there, step by step. *)
Lemma signFolder_with_key_run path ign k w :
  signFolder_with_key path ign (Some k) w
  = match sign_each path k (eligible_files path ign (os_walk path)) [] w with
    | (Next sigs, w1) =>
        match write_outcome (posixpath.join path getSignaturesLocalFilename) with
        | OpenFails => (false, World (files w1) (logged w1 ++ [folder_failed_entry path]))
        | DumpFails =>
            (false,
             World (<[posixpath.join path getSignaturesLocalFilename := Incomplete]> (files w1))
               (logged w1 ++ [folder_failed_entry path]))
        | WriteOk =>
            (true,
             World (<[posixpath.join path getSignaturesLocalFilename :=
                        Complete (manifest_doc sigs k)]> (files w1))
               (logged w1 ++ [signed_folder_entry path]))
        end
    | (Return b, w1) => (b, w1)
    | (Raise _, w1) => (false, World (files w1) (logged w1 ++ [folder_failed_entry path]))
    end.
Proof.
  unfold signFolder_with_key, returned, try_except, signFolder_try.
  unfold mbind, stmt_bind. rewrite sign_walk_flat.
  destruct (sign_each path k _ [] w) as [[sigs|b|e] w1]; [|done..].
  unfold dump_json. by destruct (write_outcome _).
Qed.

End loop_facts.

(** ** Failing runs, and what is logged *)

Section run_facts.
Context `{TB : TrustBasics} `{os : OS}.

Lemma signFolder_unfold kp path ign pw w :
  signFolder kp path ign pw w
  = signFolder_with_key (folder_of path) ign (loadPrivateKey kp (password_of pw)) w.
Proof. reflexivity. Qed.

(** X2 — when the first eligible file that cannot be handled is one whose
    signature comes back as [None], [signFolder] returns [False], leaves
    the files alone and logs one exception entry that names this file on
    disk.  The [return False] inside [try] does not reach the [except]
    clause: nothing is logged about the folder, and the files that come
    later in the walk play no part. *)
Theorem X2_unsignable_file_is_named_in_the_log
    (kp path : string) (ign : list string) (pw : option string) (w : world)
    (k : PrivateKey) (ok rest : list (string * string)) (es : list (string * string))
    (root f name_on_disk name_in_data : string) :
  loadPrivateKey kp (password_of pw) = Some k →
  eligible_files (folder_of path) ign (os_walk (folder_of path)) = ok ++ (root, f) :: rest →
  Forall2 (signs_as (folder_of path) k) ok es →
  getFilePathInfo (folder_of path) root f = inr (name_on_disk, name_in_data) →
  getFileSignature name_on_disk k = None →
  signFolder kp path ign pw w
  = (false, World (files w) (logged w ++ [file_failed_entry name_on_disk])).
Proof.
  intros Hk Hel Hok Hinfo Hsig.
  rewrite signFolder_unfold, Hk, signFolder_with_key_run, Hel.
  rewrite (sign_each_stops _ _ _ _ _ _ _ _ _ Hok).
  - by rewrite Hinfo.
  - unfold sign_entry. simpl. by rewrite Hinfo, Hsig.
Qed.

(** X3 — when the first eligible file that cannot be handled is one for
    which [getFilePathInfo] raises, the [except] clause runs: [signFolder]
    returns [False], leaves the files alone and logs one exception entry
    about the folder. *)
Theorem X3_exception_in_the_walk_is_logged_for_the_folder
    (kp path : string) (ign : list string) (pw : option string) (w : world)
    (k : PrivateKey) (ok rest : list (string * string)) (es : list (string * string))
    (root f : string) (e : exn) :
  loadPrivateKey kp (password_of pw) = Some k →
  eligible_files (folder_of path) ign (os_walk (folder_of path)) = ok ++ (root, f) :: rest →
  Forall2 (signs_as (folder_of path) k) ok es →
  getFilePathInfo (folder_of path) root f = inl e →
  signFolder kp path ign pw w
  = (false, World (files w) (logged w ++ [folder_failed_entry (folder_of path)])).
Proof.
  intros Hk Hel Hok Hinfo.
  rewrite signFolder_unfold, Hk, signFolder_with_key_run, Hel.
  rewrite (sign_each_stops _ _ _ _ _ _ _ _ _ Hok).
  - by rewrite Hinfo.
  - unfold sign_entry. simpl. by rewrite Hinfo.
Qed.

(** X4 — a run whose key does not load changes nothing, not even the log.
    Every other run keeps the log it found and appends exactly one entry:
    the "Signed folder" message when it returns [True], an exception entry
    about the folder or about one file when it returns [False]. *)
Theorem X4_one_log_entry_per_run
    (kp path : string) (ign : list string) (pw : option string) (w w' : world) (b : bool) :
  signFolder kp path ign pw w = (b, w') →
  match loadPrivateKey kp (password_of pw) with
  | None => b = false ∧ w' = w
  | Some _ =>
      ∃ entry, logged w' = logged w ++ [entry]
        ∧ (b = true → entry = signed_folder_entry (folder_of path))
        ∧ (b = false →
           entry = folder_failed_entry (folder_of path)
           ∨ ∃ name_on_disk, entry = file_failed_entry name_on_disk)
  end.
Proof.
  rewrite signFolder_unfold.
  destruct (loadPrivateKey kp (password_of pw)) as [k|]; [|by intros [= <- <-]].
  rewrite signFolder_with_key_run.
  destruct (sign_entries_or_first_failure (folder_of path) k
              (eligible_files (folder_of path) ign (os_walk (folder_of path))))
    as [[es Hes]|(ok & es & [root f] & rest & -> & Hok & Hno)].
  - rewrite (sign_each_success _ _ _ _ [] w Hes).
    destruct (write_outcome _); intros [= <- <-]; eexists; simpl;
      (split_and!; [reflexivity|try done..]); intros _; by left.
  - rewrite (sign_each_stops _ _ _ _ _ _ _ _ _ Hok Hno).
    destruct (getFilePathInfo (folder_of path) root f) as [e|[nod nid]];
      intros [= <- <-]; eexists; simpl; (split_and!; [reflexivity|done|]); intros _.
    + by left.
    + right. by eexists.
Qed.


End run_facts.

(** ** A manifest that is already there *)

Lemma walk_without_file_below top name es :
  (e ← filter (λ e, ¬ (e.1 = name ∧ is_dir e.2 = false)) es;
   walk (posixpath.join top e.1) e.2)
  = (e ← es; walk (posixpath.join top e.1) e.2).
Proof.
  induction es as [|[n c] es IH]; [done|].
  destruct (decide (n = name ∧ is_dir c = false)) as [[-> Hc]|Hkeep].
  - rewrite filter_cons_False by (simpl; tauto).
    destruct c; [|done]. by rewrite bind_cons, IH.
  - rewrite filter_cons_True by done. by rewrite !bind_cons, IH.
Qed.

Lemma eligible_in_without_file `{TB : TrustBasics} path es :
  eligible_in path path
    (filenames (filter (λ e, ¬ (e.1 = getSignaturesLocalFilename ∧ is_dir e.2 = false)) es))
  = eligible_in path path (filenames es).
Proof.
  unfold filenames. induction es as [|[n c] es IH]; [done|].
  destruct (decide (n = getSignaturesLocalFilename ∧ is_dir c = false)) as [[-> Hc]|Hkeep].
  - rewrite filter_cons_False by (simpl; tauto). rewrite IH.
    rewrite (filter_cons_True (λ e, ¬ is_dir e.2)) by (simpl; rewrite Hc; compute; tauto).
    rewrite fmap_cons, eligible_in_cons. simpl.
    by rewrite bool_decide_eq_true_2.
  - rewrite filter_cons_True by done.
    destruct (is_dir c) eqn:Hc.
    + rewrite !(filter_cons_False (λ e, ¬ is_dir e.2)) by (simpl; rewrite Hc; compute; tauto).
      apply IH.
    + rewrite !(filter_cons_True (λ e, ¬ is_dir e.2)) by (simpl; rewrite Hc; compute; tauto).
      rewrite !fmap_cons, !eligible_in_cons. simpl. by rewrite IH.
Qed.

Lemma eligible_files_without_manifest `{TB : TrustBasics} path ign n :
  eligible_files path ign (walk path (without_file getSignaturesLocalFilename n))
  = eligible_files path ign (walk path n).
Proof.
  destruct n as [|es]; [done|]. unfold without_file.
  rewrite !walk_Dir, !eligible_files_cons, walk_without_file_below. simpl.
  by rewrite eligible_in_without_file.
Qed.

Lemma signFolder_without_manifest `{TB : TrustBasics} (os : OS) kp path ign pw w :
  signFolder
    (os := with_listing os (λ p, without_file getSignaturesLocalFilename (@listing os p)))
    kp path ign pw w
  = signFolder (os := os) kp path ign pw w.
Proof.
  rewrite !signFolder_unfold.
  change (@folder_of (with_listing os _) path) with (@folder_of os path).
  destruct (loadPrivateKey kp (password_of pw)) as [k|]; [|done].
  rewrite !signFolder_with_key_run.
  unfold os_walk at 1. simpl listing.
  rewrite eligible_files_without_manifest. reflexivity.
Qed.

(** X6 — the manifest file of the root plays no part in a run: with the
    files of that name directly in the signed folder taken out of the
    listing, [signFolder] returns the same value and leaves the same files
    and the same log.  Signing a folder that already holds a manifest is
    signing the folder without it. *)
Theorem X6_manifest_of_the_root_plays_no_part `{TB : TrustBasics} (os : OS)
    (kp path : string) (ign : list string) (pw : option string) (w : world) :
  signFolder
    (os := with_listing os (λ p, without_file getSignaturesLocalFilename (@listing os p)))
    kp path ign pw w
  = signFolder (os := os) kp path ign pw w.
Proof. apply signFolder_without_manifest. Qed.

(** ** The mapping that is written *)

Lemma dict_set_fresh {V : Type} (d : dict V) k v :
  k ∉ keys d → dict_set d k v = d ++ [(k, v)].
Proof.
  unfold keys. induction d as [|[k' v'] d IH]; [done|].
  rewrite fmap_cons, not_elem_of_cons. intros [Hne Hin]. simpl.
  rewrite bool_decide_eq_false_2 by done. by rewrite IH.
Qed.

Lemma set_entries_fresh (d : dict string) es :
  NoDup (keys d ++ es.*1) → set_entries d es = d ++ es.
Proof.
  revert d. induction es as [|[k v] es IH]; intros d Hnd; simpl.
  - by rewrite app_nil_r.
  - rewrite dict_set_fresh.
    + rewrite IH; [by rewrite <- app_assoc|].
      unfold keys in *. rewrite fmap_app. simpl. by rewrite <- app_assoc.
    + apply NoDup_app in Hnd as (_ & Hdisj & _). intros Hin.
      apply (Hdisj _ Hin). left.
Qed.

Lemma dict_get_set {V : Type} (d : dict V) k v k' :
  dict_get (dict_set d k v) k' = if bool_decide (k = k') then Some v else dict_get d k'.
Proof.
  induction d as [|[k0 v0] d IH]; simpl.
  - done.
  - destruct (decide (k0 = k)) as [->|Hne].
    + rewrite (bool_decide_eq_true_2 (k = k)) by done. simpl.
      by destruct (bool_decide (k = k')).
    + rewrite (bool_decide_eq_false_2 (k0 = k)) by done. simpl. rewrite IH.
      destruct (decide (k0 = k')) as [->|Hne'].
      * rewrite (bool_decide_eq_true_2 (k' = k')) by done.
        by rewrite (bool_decide_eq_false_2 (k = k')) by done.
      * by rewrite (bool_decide_eq_false_2 (k0 = k')) by done.
Qed.

Lemma dict_get_set_entries (d : dict string) es key :
  dict_get (set_entries d es) key
  = match last (filter (λ e, e.1 = key) es) with
    | Some e => Some e.2
    | None => dict_get d key
    end.
Proof.
  revert d. induction es as [|[k v] es IH]; intros d; [done|].
  simpl. rewrite IH, dict_get_set.
  destruct (decide (k = key)) as [->|Hne].
  - rewrite filter_cons_True by done. rewrite last_cons.
    rewrite bool_decide_eq_true_2 by done.
    by destruct (last (filter _ es)).
  - rewrite filter_cons_False by done.
    by rewrite bool_decide_eq_false_2 by done.
Qed.

Section mapping_facts.
Context `{TB : TrustBasics} `{os : OS}.

(** X7 — when the key loads, every eligible file is signed, the keys of
    these files are pairwise distinct and the write succeeds, [signFolder]
    returns [True]; the document it writes lists, under "root_signatures",
    exactly the (key, signature) pairs of the eligible files in walk order,
    and the log gains the "Signed folder" message. *)
Theorem X7_document_lists_the_signatures_in_walk_order
    (kp path : string) (ign : list string) (pw : option string) (w : world)
    (k : PrivateKey) (es : list (string * string)) :
  loadPrivateKey kp (password_of pw) = Some k →
  Forall2 (signs_as (folder_of path) k)
    (eligible_files (folder_of path) ign (os_walk (folder_of path))) es →
  NoDup es.*1 →
  write_outcome (manifest_path path) = WriteOk →
  signFolder kp path ign pw w
  = (true,
     World
       (<[manifest_path path :=
            Complete (JObj
              [("root_signatures", JObj (prod_map id JStr <$> es));
               ("root_manifest_signature",
                JStr (getHashSignature (getSelfSignHash es) k))])]> (files w))
       (logged w ++ [signed_folder_entry (folder_of path)])).
Proof.
  intros Hk Hes Hnd Hout.
  rewrite signFolder_unfold, Hk, signFolder_with_key_run.
  rewrite (sign_each_success _ _ _ _ [] w Hes).
  fold (manifest_path path). rewrite Hout.
  rewrite set_entries_fresh by done. reflexivity.
Qed.

(** X8 — in the mapping of a run that succeeds, the value found under a
    key is the signature of the last eligible file, in walk order, that has
    this key (a later assignment replaces an earlier one), and a key that
    no eligible file has is absent. *)
Theorem X8_lookup_finds_the_last_file_of_a_key
    (kp path : string) (ign : list string) (pw : option string) (w w' : world) :
  signFolder kp path ign pw w = (true, w') →
  ∃ (k : PrivateKey) (es mapping : dict string),
    Forall2 (signs_as (folder_of path) k)
      (eligible_files (folder_of path) ign (os_walk (folder_of path))) es
    ∧ files w' !! manifest_path path = Some (Complete (manifest_doc mapping k))
    ∧ ∀ key, dict_get mapping key = snd <$> last (filter (λ e, e.1 = key) es).
Proof.
  intros Hrun. apply signFolder_inv in Hrun.
  inversion Hrun as [| | | |k es Hk Hes Hout]; subst.
  exists k, es, (set_entries [] es). split_and!; [done| |].
  - simpl. by rewrite lookup_insert_eq.
  - intros key. rewrite dict_get_set_entries. by destruct (last _).
Qed.

End mapping_facts.

(** ** Defaults, the command line, and signing again *)

Section entry_facts.
Context `{TB : TrustBasics} `{os : OS}.

(** X9 — an empty path and "." both stand for the working directory: the
    run is the run on the path that [os.getcwd()] gives, manifest location
    and log message included. *)
Theorem X9_empty_path_and_dot_are_the_working_directory
    (kp : string) (ign : list string) (pw : option string) (w : world) :
  signFolder kp "" ign pw w = signFolder kp getcwd ign pw w
  ∧ signFolder kp "." ign pw w = signFolder kp getcwd ign pw w.
Proof.
  rewrite !signFolder_unfold.
  assert (folder_of getcwd = getcwd) as ->.
  { unfold folder_of. by destruct (bool_decide _). }
  split; reflexivity.
Qed.



End entry_facts.


(** ** The further properties at work on the plug-in folders *)

Lemma X1_witness :
  sign_walk (TB := demo.tb) (os := demo.os_of demo.plugin WriteOk)
    "/plugin" ["__pycache__"] "K"
    [("/plugin", [], ["manifest.json"; "a.txt"]); ("/plugin/__pycache__", [], ["c.pyc"])]
    [] demo.w0
  = sign_walk (TB := demo.tb) (os := demo.os_of demo.plugin WriteOk)
      "/plugin" ["__pycache__"] "K" [("/plugin", [], ["a.txt"])] [] demo.w0.
Proof.
  apply (X1_nested_loops_are_one_loop_over_eligible_files
           (TB := demo.tb) (os := demo.os_of demo.plugin WriteOk)).
  vm_compute. reflexivity.
Defined.

Lemma X2_witness :
  signFolder (TB := demo.tb) (os := demo.os_of more_demo.locked_in_the_middle WriteOk)
    "key.pem" "/plugin" ["__pycache__"] None demo.w0
  = (false,
     World (files demo.w0)
       (logged demo.w0 ++ [file_failed_entry "/plugin/locked.bin"])).
Proof.
  apply (X2_unsignable_file_is_named_in_the_log
           (TB := demo.tb) (os := demo.os_of more_demo.locked_in_the_middle WriteOk)
           "key.pem" "/plugin" ["__pycache__"] None demo.w0 "K"
           [("/plugin", "a.txt")] [("/plugin", "z.txt")]
           [("a.txt", "sig(/plugin/a.txt)")]
           "/plugin" "locked.bin" "/plugin/locked.bin" "locked.bin").
  - vm_compute. reflexivity.
  - vm_compute. reflexivity.
  - apply Forall2_cons_2; [vm_compute; reflexivity|apply Forall2_nil_2].
  - vm_compute. reflexivity.
  - vm_compute. reflexivity.
Defined.

Lemma X3_witness :
  signFolder (TB := demo.tb) (os := demo.os_of demo.plugin_with_link WriteOk)
    "key.pem" "/plugin" ["__pycache__"] None demo.w0
  = (false,
     World (files demo.w0) (logged demo.w0 ++ [folder_failed_entry "/plugin"])).
Proof.
  apply (X3_exception_in_the_walk_is_logged_for_the_folder
           (TB := demo.tb) (os := demo.os_of demo.plugin_with_link WriteOk)
           "key.pem" "/plugin" ["__pycache__"] None demo.w0 "K"
           [("/plugin", "a.txt")] [] [("a.txt", "sig(/plugin/a.txt)")]
           "/plugin/sub" "link.txt" PathOutsideRootError).
  - vm_compute. reflexivity.
  - vm_compute. reflexivity.
  - apply Forall2_cons_2; [vm_compute; reflexivity|apply Forall2_nil_2].
  - vm_compute. reflexivity.
Defined.

Lemma X4_witness :
  match @loadPrivateKey demo.tb "key.pem" (password_of (Some "")) with
  | None =>
      true = false
      ∧ (signFolder (TB := demo.tb) (os := demo.os_of demo.plugin WriteOk)
           "key.pem" "/plugin" ["__pycache__"] (Some "") demo.w0).2 = demo.w0
  | Some _ =>
      ∃ entry,
        logged (signFolder (TB := demo.tb) (os := demo.os_of demo.plugin WriteOk)
                  "key.pem" "/plugin" ["__pycache__"] (Some "") demo.w0).2
        = logged demo.w0 ++ [entry]
        ∧ (true = true →
           entry = signed_folder_entry
                     (@folder_of (demo.os_of demo.plugin WriteOk) "/plugin"))
        ∧ (true = false →
           entry = folder_failed_entry
                     (@folder_of (demo.os_of demo.plugin WriteOk) "/plugin")
           ∨ ∃ name_on_disk, entry = file_failed_entry name_on_disk)
  end.
Proof.
  apply (X4_one_log_entry_per_run
           (TB := demo.tb) (os := demo.os_of demo.plugin WriteOk)
           "key.pem" "/plugin" ["__pycache__"] (Some "") demo.w0).
  vm_compute. reflexivity.
Defined.


Lemma X7_witness :
  signFolder (TB := demo.tb) (os := demo.os_of more_demo.signed_before WriteOk)
    "key.pem" "." [] (Some "") demo.w0
  = (true,
     World
       (<["/plugin/manifest.json" :=
            Complete (JObj
              [("root_signatures",
                JObj (prod_map id JStr <$>
                        [("a.txt", "sig(/plugin/a.txt)");
                         ("sub/b.txt", "sig(/plugin/sub/b.txt)")]));
               ("root_manifest_signature",
                JStr (@getHashSignature demo.tb
                        (@getSelfSignHash demo.tb
                           [("a.txt", "sig(/plugin/a.txt)");
                            ("sub/b.txt", "sig(/plugin/sub/b.txt)")]) "K"))])]>
          (files demo.w0))
       (logged demo.w0 ++ [signed_folder_entry "/plugin"])).
Proof.
  apply (X7_document_lists_the_signatures_in_walk_order
           (TB := demo.tb) (os := demo.os_of more_demo.signed_before WriteOk)
           "key.pem" "." [] (Some "") demo.w0 "K"
           [("a.txt", "sig(/plugin/a.txt)"); ("sub/b.txt", "sig(/plugin/sub/b.txt)")]).
  - vm_compute. reflexivity.
  - apply Forall2_cons_2; [vm_compute; reflexivity|].
    apply Forall2_cons_2; [vm_compute; reflexivity|apply Forall2_nil_2].
  - refine (bool_decide_unpack _ _). vm_compute. exact I.
  - reflexivity.
Defined.

Lemma X8_witness :
  ∃ (k : @PrivateKey demo.tb) (es mapping : dict string),
    Forall2 (signs_as (TB := demo.tb) (os := demo.os_of demo.plugin WriteOk) "/plugin" k)
      (eligible_files (TB := demo.tb) "/plugin" ["__pycache__"]
         (@os_walk (demo.os_of demo.plugin WriteOk) "/plugin")) es
    ∧ files (signFolder (TB := demo.tb) (os := demo.os_of demo.plugin WriteOk)
               "key.pem" "/plugin" ["__pycache__"] None demo.w0).2
        !! "/plugin/manifest.json"
      = Some (Complete (@manifest_doc demo.tb mapping k))
    ∧ ∀ key, dict_get mapping key = snd <$> last (filter (λ e, e.1 = key) es).
Proof.
  apply (X8_lookup_finds_the_last_file_of_a_key
           (TB := demo.tb) (os := demo.os_of demo.plugin WriteOk)
           "key.pem" "/plugin" ["__pycache__"] None demo.w0).
  vm_compute. reflexivity.
Defined.


(** ** Ignoring more folders *)

Lemma eligible_files_more_ignored `{TB : TrustBasics} path ign more items :
  eligible_files path (ign ++ more) items `sublist_of` eligible_files path ign items.
Proof.
  induction items as [|[[root ds] fs] items IH]; [done|].
  rewrite !eligible_files_cons. apply sublist_app; [|done].
  destruct (decide (posixpath.basename root ∈ ign)) as [Hin|Hout].
  - rewrite (bool_decide_eq_true_2 (_ ∈ ign ++ more)) by (apply elem_of_app; by left).
    apply sublist_nil_l.
  - rewrite (bool_decide_eq_false_2 (_ ∈ ign)) by done.
    case_bool_decide; [apply sublist_nil_l|done].
Qed.

Lemma Forall2_sublist_l {A B : Type} (R : A → B → Prop) (l' l : list A) (es : list B) :
  l' `sublist_of` l → Forall2 R l es → ∃ es', es' `sublist_of` es ∧ Forall2 R l' es'.
Proof.
  intros Hsub. revert es. induction Hsub as [|x l1 l2 _ IH|x l1 l2 _ IH]; intros es Hes.
  - exists []. split; [apply sublist_nil_l|constructor].
  - apply Forall2_cons_inv_l in Hes as (e & es0 & He & Hes0 & ->).
    destruct (IH _ Hes0) as (es' & Hsub' & HF).
    exists (e :: es'). split; [by apply sublist_skip|by constructor].
  - apply Forall2_cons_inv_l in Hes as (e & es0 & He & Hes0 & ->).
    destruct (IH _ Hes0) as (es' & Hsub' & HF).
    exists es'. split; [by apply sublist_cons|done].
Qed.

(** X12 — a longer ignore list only takes files away: the eligible files
    under [ign ++ more] are a sub-list of those under [ign], and a signing
    that succeeds with [ign] succeeds with [ign ++ more] as well. *)
Theorem X12_ignoring_more_folders_keeps_a_signing_successful
    `{TB : TrustBasics} `{os : OS}
    (kp path : string) (ign more : list string) (pw : option string) (w w' : world) :
  signFolder kp path ign pw w = (true, w') →
  eligible_files (folder_of path) (ign ++ more) (os_walk (folder_of path))
    `sublist_of` eligible_files (folder_of path) ign (os_walk (folder_of path))
  ∧ (signFolder kp path (ign ++ more) pw w).1 = true.
Proof.
  intros Hrun. split; [apply eligible_files_more_ignored|].
  apply signFolder_inv in Hrun.
  inversion Hrun as [| | | |k es Hk Hes Hout]; subst.
  destruct (Forall2_sublist_l _ _ _ _
              (eligible_files_more_ignored (folder_of path) ign more
                 (os_walk (folder_of path))) Hes) as (es' & _ & Hes').
  rewrite signFolder_unfold, Hk, signFolder_with_key_run.
  rewrite (sign_each_success _ _ _ _ [] w Hes').
  fold (manifest_path path). by rewrite Hout.
Qed.

Lemma X12_witness :
  eligible_files (TB := demo.tb)
    (@folder_of (demo.os_of demo.plugin WriteOk) "/plugin") ([] ++ ["__pycache__"; "sub"])
    (@os_walk (demo.os_of demo.plugin WriteOk)
       (@folder_of (demo.os_of demo.plugin WriteOk) "/plugin"))
    `sublist_of`
    eligible_files (TB := demo.tb)
      (@folder_of (demo.os_of demo.plugin WriteOk) "/plugin") []
      (@os_walk (demo.os_of demo.plugin WriteOk)
         (@folder_of (demo.os_of demo.plugin WriteOk) "/plugin"))
  ∧ (signFolder (TB := demo.tb) (os := demo.os_of demo.plugin WriteOk)
       "key.pem" "/plugin" ([] ++ ["__pycache__"; "sub"]) None demo.w0).1 = true.
Proof.
  apply (X12_ignoring_more_folders_keeps_a_signing_successful
           (TB := demo.tb) (os := demo.os_of demo.plugin WriteOk)
           "key.pem" "/plugin" [] ["__pycache__"; "sub"] None demo.w0
           (signFolder (TB := demo.tb) (os := demo.os_of demo.plugin WriteOk)
              "key.pem" "/plugin" [] None demo.w0).2).
  vm_compute. reflexivity.
Defined.
